(** * SimCSE-Pytorch: the training script [SimCSE/train.py]

    A shallow embedding of [train], [evaluation], [main] and the entry
    point of [SimCSE/train.py].  The script is a straight line of calls
    into torch, transformers, scipy, loguru and the repository's own
    [dataloader] and [model] modules; those callees are the fields of an
    environment record, the script itself is written in a small
    exception-and-trace monad, and the tensor reshaping it performs is
    modelled on row-major contiguous storage. *)

From Stdlib Require Import List ZArith QArith Ascii String Bool Lia.
Import ListNotations.

Local Open Scope string_scope.
Local Open Scope Z_scope.
Local Open Scope list_scope.

(** ** Python values *)

(** A Python float: the finite doubles are rationals, compared as such;
    infinities and NaN are kept apart. *)
Inductive pyfloat :=
| Finite (q : Q)
| PInf
| NInf
| NaN.

(** [a < b] on floats.  Every comparison with NaN is false. *)
Definition py_lt (a b : pyfloat) : bool :=
  match a, b with
  | NaN, _ | _, NaN => false
  | Finite x, Finite y => match Qcompare x y with Lt => true | _ => false end
  | NInf, NInf => false
  | NInf, _ => true
  | _, NInf => false
  | PInf, _ => false
  | Finite _, PInf => true
  end.

(** [a <= b] on floats. *)
Definition py_le (a b : pyfloat) : bool :=
  match a, b with
  | NaN, _ | _, NaN => false
  | Finite x, Finite y => match Qcompare x y with Gt => false | _ => true end
  | NInf, _ => true
  | _, PInf => true
  | _, NInf => false
  | PInf, _ => false
  end.

(** An [int] or a [float], for the one flag whose default and parsed
    values differ in type ([--batch_size], [type=float, default=4]). *)
Inductive pynum :=
| PyInt (z : Z)
| PyFloat (x : pyfloat).

(** ** Tensors of integers, row-major and contiguous *)

Record tensor := mkTensor { shape : list Z; data : list Z }.

Definition numel (sh : list Z) : Z := fold_right Z.mul 1 sh.

Definition contiguous (t : tensor) : Prop :=
  Z.of_nat (List.length (data t)) = numel (shape t).

(** Row-major offset of a multi-index, with the bounds check on every
    coordinate. *)
Fixpoint offset (sh idx : list Z) (acc : Z) : option Z :=
  match sh, idx with
  | [], [] => Some acc
  | d :: sh', i :: idx' =>
      if (0 <=? i) && (i <? d) then offset sh' idx' (acc * d + i) else None
  | _, _ => None
  end.

(** [t[i0, i1, ...]] *)
Definition tensor_get (t : tensor) (idx : list Z) : option Z :=
  match offset (shape t) idx 0 with
  | Some o => nth_error (data t) (Z.to_nat o)
  | None => None
  end.

(** [t.view(rows, -1)]: the second dimension is inferred from the number
    of elements; torch refuses when it cannot be. *)
Definition view_rows (t : tensor) (rows : Z) : option tensor :=
  let n := numel (shape t) in
  if (0 <? rows) && (n mod rows =? 0)
  then Some (mkTensor [rows; n / rows] (data t))
  else None.

(** [t.squeeze(1)]: drops dimension 1 when it has size 1, leaves the
    tensor alone when it has another size, and is refused on a tensor
    with fewer than two dimensions. *)
Definition squeeze1 (t : tensor) : option tensor :=
  match shape t with
  | d0 :: d1 :: rest =>
      if d1 =? 1 then Some (mkTensor (d0 :: rest) (data t)) else Some t
  | _ => None
  end.

(** The dict a tokenizer returns and a collated batch keeps. *)
Record encoding := mkEncoding {
  input_ids : tensor;
  attention_mask : tensor;
  token_type_ids : tensor
}.

(** [d.get(key)] on that dict: [None] for a key it does not hold. *)
Definition enc_get (d : encoding) (key : string) : option tensor :=
  if String.eqb key "input_ids" then Some (input_ids d)
  else if String.eqb key "attention_mask" then Some (attention_mask d)
  else if String.eqb key "token_type_ids" then Some (token_type_ids d)
  else None.

(** Modelled from the spec: the dataset classes of [dataloader.py], which
    is not among the sources.  An unsupervised item is one tokenized
    sentence, a dict of ids, attention-mask and type-ids tensors; a
    supervised item is a sentence pair with its gold label.  The exact
    layouts are the ones the docstring of [train] records: a
    [TrainDataset] item is the tokenizer's dict, a [TestDataset] item is
    the triple [text2id([da[0]]), text2id([da[1]]), int(da[2])], which the
    default collate turns into a three-element list and which
    [evaluation] unpacks as [source, target, label]. *)
Inductive batch :=
| BatchDict (d : encoding)
| BatchTriple (source target : encoding) (label : list Z).

(** ** Command-line arguments *)

Record Args := mkArgs {
  device : string;
  save_path : string;
  un_supervise : bool;
  lr : pyfloat;
  dropout : pyfloat;
  batch_size : pynum;
  max_length : Z;
  data_path : string;
  pretrain_model_path : string;
  pooler : string
}.

Definition set_device (a : Args) (d : string) : Args :=
  mkArgs d (save_path a) (un_supervise a) (lr a) (dropout a) (batch_size a)
         (max_length a) (data_path a) (pretrain_model_path a) (pooler a).

(** ** Exceptions, library calls and traces *)

Inductive exn :=
| AssertionError
| AttributeError
| IndexError
| SystemExit (code : Z)
| FrameworkError (name : string).

Inductive outcome (A : Type) :=
| Ok (a : A)
| Raise (e : exn).
Arguments Ok {A} a.
Arguments Raise {A} e.

(** What a library call answers: a value, or an exception of its own,
    known by its class name. *)
Inductive reply (A : Type) :=
| Returns (a : A)
| Throws (name : string).
Arguments Returns {A} a.
Arguments Throws {A} name.

(** One line of a delimited data file, split into its fields. *)
Definition row := list string.

(** [TrainDataset(data, tokenizer, max_len)] and
    [TestDataset(data, tokenizer, max_len)]. *)
Inductive dataset (T : Type) :=
| TrainDataset (sents : list string) (tokenizer : T) (max_len : Z)
| TestDataset (rows : list row) (tokenizer : T) (max_len : Z).
Arguments TrainDataset {T} sents tokenizer max_len.
Arguments TestDataset {T} rows tokenizer max_len.

(** [DataLoader(dataset, batch_size=..., shuffle=True, num_workers=1)]. *)
Record DataLoader (T : Type) := mkDataLoader {
  dl_dataset : dataset T;
  dl_batch_size : pynum
}.
Arguments mkDataLoader {T} dl_dataset dl_batch_size.
Arguments dl_dataset {T} d.
Arguments dl_batch_size {T} d.

(** The calls the script makes outside itself. *)
Inductive call :=
| c_logger_add (path : string)
| c_load_sts_data (path : string)
| c_load_sts_data_unsup (path : string)
| c_from_pretrained (path : string)
| c_DataLoader (batch_size : pynum)
| c_SimcseModel (pretrained pooling : string) (dropout : pyfloat)
| c_model_to (device : string)
| c_AdamW (lr : pyfloat)
| c_model_train
| c_model_eval
| c_next_batch (k : nat)
| c_view (t : tensor) (rows : Z)
| c_squeeze (t : tensor)
| c_tensor_to (t : tensor) (device : string)
| c_forward (ids mask types : tensor)
| c_simcse_unsup_loss
| c_zero_grad
| c_backward
| c_optimizer_step
| c_loss_item
| c_cosine_similarity
| c_spearmanr (labels : list Z) (sims : list pyfloat)
| c_torch_save (path : string).

Inductive returned :=
| Done
| DoneFloat (x : pyfloat)
| Threw (name : string).

(** The three messages the script hands to [logger.info]. *)
Inductive message :=
| MsgArgs (a : Args)
| MsgLoss (x : pyfloat)
| MsgHigher (best : pyfloat) (batch_idx : Z).

Inductive event :=
| Call (c : call) (r : returned)
| LogInfo (m : message)
| TqdmBar (k : nat).

Definition trace := list event.

(** ** The environment the script runs against

    [World] is everything mutable outside the script: the file system,
    the random generators, the parameters, gradients and mode of the
    model, the optimizer's moments.  Every callee reads and updates it. *)
Record Env := mkEnv {
  World : Type;
  Tokenizer : Type;
  Model : Type;
  Optimizer : Type;
  Output : Type;
  Loss : Type;
  (* the builtins behind argparse's type=float and type=int *)
  py_float : string -> option pyfloat;
  py_int : string -> option Z;
  (* loguru *)
  logger_add : string -> World -> reply unit * World;
  (* torch *)
  cuda_is_available : World -> bool;
  DataLoader_init : dataset Tokenizer -> pynum -> World -> reply unit * World;
  dataloader_len : DataLoader Tokenizer -> nat;
  tensor_to : tensor -> string -> World -> reply unit * World;
  no_grad_enter : World -> World;
  no_grad_exit : World -> World;
  cosine_similarity : Output -> Output -> World -> reply (list pyfloat) * World;
  AdamW_init : Model -> pyfloat -> World -> reply Optimizer * World;
  zero_grad : Optimizer -> World -> reply unit * World;
  backward : Loss -> World -> reply unit * World;
  optimizer_step : Optimizer -> World -> reply unit * World;
  loss_item : Loss -> World -> reply pyfloat * World;
  (* transformers *)
  from_pretrained : string -> World -> reply Tokenizer * World;
  (* scipy *)
  spearmanr : list Z -> list pyfloat -> reply pyfloat;
  (* dataloader.py *)
  load_sts_data : string -> World -> reply (list row) * World;
  load_sts_data_unsup : string -> World -> reply (list row) * World;
  fetch_train : list string -> Tokenizer -> Z -> pynum -> nat ->
                World -> reply encoding * World;
  fetch_test : list row -> Tokenizer -> Z -> pynum -> nat ->
               World -> reply (encoding * encoding * list Z) * World;
  (* model.py *)
  SimcseModel_init : string -> string -> pyfloat -> World -> reply Model * World;
  model_to : Model -> string -> World -> reply Model * World;
  model_train : Model -> World -> reply unit * World;
  model_eval : Model -> World -> reply unit * World;
  forward : Model -> tensor -> tensor -> tensor -> World -> reply Output * World;
  simcse_unsup_loss : Output -> string -> World -> reply Loss * World
}.

(** ** The script monad: a result or an exception, the world, and the
    events emitted on the way *)

Definition run (W A : Type) : Type := outcome A * W * trace.

Definition run_result {W A} (x : run W A) : outcome A := fst (fst x).
Definition run_world {W A} (x : run W A) : W := snd (fst x).
Definition run_trace {W A} (x : run W A) : trace := snd x.

Definition prog (W A : Type) : Type := W -> run W A.

Definition ret {W A} (a : A) : prog W A := fun w => (Ok a, w, []).

Definition raise {W A} (e : exn) : prog W A := fun w => (Raise e, w, []).

Definition bind {W A B} (m : prog W A) (k : A -> prog W B) : prog W B :=
  fun w =>
    match m w with
    | (Ok a, w1, t1) =>
        match k a w1 with
        | (r, w2, t2) => (r, w2, t1 ++ t2)
        end
    | (Raise e, w1, t1) => (Raise e, w1, t1)
    end.

Notation "x <- m ;; k" := (bind m (fun x => k))
  (at level 61, m at next level, right associativity).

Definition emit {W} (ev : event) : prog W unit := fun w => (Ok tt, w, [ev]).

(** A library call: its event records whether it returned or threw, and
    what it throws is re-raised as it is. *)
Definition invoke {W A} (c : call) (f : W -> reply A * W) : prog W A :=
  fun w =>
    match f w with
    | (Returns a, w1) => (Ok a, w1, [Call c Done])
    | (Throws n, w1) => (Raise (FrameworkError n), w1, [Call c (Threw n)])
    end.

(** A library call on values alone, modelled here by [f]. *)
Definition invoke_pure {W A} (c : call) (f : option A) (n : string) : prog W A :=
  fun w =>
    match f with
    | Some a => (Ok a, w, [Call c Done])
    | None => (Raise (FrameworkError n), w, [Call c (Threw n)])
    end.

(** [assert b] *)
Definition py_assert {W} (b : bool) : prog W unit :=
  if b then ret tt else raise AssertionError.

(** ** The script *)

Definition pooler_choices : list string :=
  ["cls"; "pooler"; "last-avg"; "first-last-avg"].

(** [s in l] on a list of strings. *)
Definition str_in (s : string) (l : list string) : bool :=
  existsb (String.eqb s) l.

Section Script.

Variable env : Env.

Local Abbreviation script := (prog (World env)).
Local Abbreviation loader := (DataLoader (Tokenizer env)).

(** The [k]-th batch of one pass over a DataLoader.  The layout of the
    batch follows the dataset class. *)
Definition next_batch (dl : loader) (k : nat) : script batch :=
  match dl_dataset dl with
  | TrainDataset sents tok max_len =>
      d <- invoke (c_next_batch k)
             (fetch_train env sents tok max_len (dl_batch_size dl) k) ;;
      ret (BatchDict d)
  | TestDataset rows tok max_len =>
      x <- invoke (c_next_batch k)
             (fetch_test env rows tok max_len (dl_batch_size dl) k) ;;
      ret (BatchTriple (fst (fst x)) (snd (fst x)) (snd x))
  end.

(** [source.get(key)] on a batch: a dict answers, a list has no [get]. *)
Definition batch_get (source : batch) (key : string) : script (option tensor) :=
  match source with
  | BatchDict d => ret (enc_get d key)
  | BatchTriple _ _ _ => raise AttributeError
  end.

(** [t.shape[0]] *)
Definition shape0 (t : option tensor) : script Z :=
  match t with
  | None => raise AttributeError
  | Some t =>
      match shape t with
      | d :: _ => ret d
      | [] => raise IndexError
      end
  end.

(** [t.view(rows, -1)] *)
Definition tensor_view (t : option tensor) (rows : Z) : script tensor :=
  match t with
  | None => raise AttributeError
  | Some t => invoke_pure (c_view t rows) (view_rows t rows) "RuntimeError"
  end.

(** [t.squeeze(1)] *)
Definition tensor_squeeze (t : option tensor) : script tensor :=
  match t with
  | None => raise AttributeError
  | Some t => invoke_pure (c_squeeze t) (squeeze1 t) "IndexError"
  end.

(** [t.to(device)]: the same values on the other device, or a device
    error. *)
Definition to_device (t : tensor) (device : string) : script tensor :=
  _ <- invoke (c_tensor_to t device) (tensor_to env t device) ;;
  ret t.

(** [with torch.no_grad(): body]: the context is left on every exit, and
    an exception of the body goes on to the caller. *)
Definition with_no_grad {A} (body : script A) : script A :=
  fun w =>
    match body (no_grad_enter env w) with
    | (r, w1, t) => (r, no_grad_exit env w1, t)
    end.

(** [for source, target, label in dataloader]: a three-element list
    unpacks into its elements; a dict of three keys unpacks into the key
    strings, on which [get] then fails. *)
Definition unpack3 (b : batch) : script (encoding * encoding * list Z) :=
  match b with
  | BatchTriple s t l => ret (s, t, l)
  | BatchDict _ => raise AttributeError
  end.

(** The three tensors of one side of a pair, squeezed and moved. *)
Definition squeezed (d : encoding) (key : string) (device : string) : script tensor :=
  t <- tensor_squeeze (enc_get d key) ;;
  to_device t device.

(** The body of the loop of [evaluation], over the batches still to come,
    with the two running arrays. *)
Fixpoint evaluation_loop (model : Model env) (dataloader : loader)
    (device : string) (ks : list nat)
    (sim_tensor : list pyfloat) (label_array : list Z)
  : script (list pyfloat * list Z) :=
  match ks with
  | [] => ret (sim_tensor, label_array)
  | k :: ks' =>
      b <- next_batch dataloader k ;;
      x <- unpack3 b ;;
      let source := fst (fst x) in
      let target := snd (fst x) in
      let label := snd x in
      source_input_ids <- squeezed source "input_ids" device ;;
      source_attention_mask <- squeezed source "attention_mask" device ;;
      source_token_type_ids <- squeezed source "token_type_ids" device ;;
      source_pred <- invoke (c_forward source_input_ids source_attention_mask
                               source_token_type_ids)
                       (forward env model source_input_ids source_attention_mask
                          source_token_type_ids) ;;
      target_input_ids <- squeezed target "input_ids" device ;;
      target_attention_mask <- squeezed target "attention_mask" device ;;
      target_token_type_ids <- squeezed target "token_type_ids" device ;;
      target_pred <- invoke (c_forward target_input_ids target_attention_mask
                               target_token_type_ids)
                       (forward env model target_input_ids target_attention_mask
                          target_token_type_ids) ;;
      sim <- invoke c_cosine_similarity
               (cosine_similarity env source_pred target_pred) ;;
      evaluation_loop model dataloader device ks'
        (sim_tensor ++ sim) (label_array ++ label)
  end.

(** [spearmanr(label_array, sims).correlation] *)
Definition call_spearmanr (label_array : list Z) (sims : list pyfloat) : script pyfloat :=
  fun w =>
    match spearmanr env label_array sims with
    | Returns c => (Ok c, w, [Call (c_spearmanr label_array sims) (DoneFloat c)])
    | Throws n => (Raise (FrameworkError n), w,
                   [Call (c_spearmanr label_array sims) (Threw n)])
    end.

Definition evaluation (model : Model env) (dataloader : loader) (device : string)
  : script pyfloat :=
  _ <- invoke c_model_eval (model_eval env model) ;;
  acc <- with_no_grad
           (evaluation_loop model dataloader device
              (seq 0 (dataloader_len env dataloader)) [] []) ;;
  call_spearmanr (snd acc) (fst acc).

(** One pass of the body of the loop of [train]; the result is the value
    of [best] after it. *)
Definition train_step (model : Model env) (dev_dl : loader)
    (optimizer : Optimizer env) (device : string)
    (source : batch) (batch_idx : Z) (best : pyfloat) : script pyfloat :=
  ids0 <- batch_get source "input_ids" ;;
  real_batch_num <- shape0 ids0 ;;
  ids1 <- batch_get source "input_ids" ;;
  ids2 <- tensor_view ids1 (real_batch_num * 2) ;;
  input_ids <- to_device ids2 device ;;
  am1 <- batch_get source "attention_mask" ;;
  am2 <- tensor_view am1 (real_batch_num * 2) ;;
  attention_mask <- to_device am2 device ;;
  tt1 <- batch_get source "token_type_ids" ;;
  tt2 <- tensor_view tt1 (real_batch_num * 2) ;;
  token_type_ids <- to_device tt2 device ;;
  out <- invoke (c_forward input_ids attention_mask token_type_ids)
           (forward env model input_ids attention_mask token_type_ids) ;;
  loss <- invoke c_simcse_unsup_loss (simcse_unsup_loss env out device) ;;
  _ <- invoke c_zero_grad (zero_grad env optimizer) ;;
  _ <- invoke c_backward (backward env loss) ;;
  _ <- invoke c_optimizer_step (optimizer_step env optimizer) ;;
  if batch_idx mod 1 =? 0 then
    x <- invoke c_loss_item (loss_item env loss) ;;
    _ <- emit (LogInfo (MsgLoss x)) ;;
    corrcoef <- evaluation model dev_dl device ;;
    _ <- invoke c_model_train (model_train env model) ;;
    if py_lt best corrcoef then
      (* torch.save(model.state_dict(), save_path) is commented out *)
      _ <- emit (LogInfo (MsgHigher corrcoef batch_idx)) ;;
      ret corrcoef
    else ret best
  else ret best.

(** [for batch_idx, source in enumerate(tqdm(train_dl), start=1)], over
    the batches still to come. *)
Fixpoint train_loop (model : Model env) (train_dl dev_dl : loader)
    (optimizer : Optimizer env) (device : string)
    (ks : list nat) (batch_idx : Z) (best : pyfloat) : script pyfloat :=
  match ks with
  | [] => ret best
  | k :: ks' =>
      source <- next_batch train_dl k ;;
      _ <- emit (TqdmBar k) ;;
      best' <- train_step model dev_dl optimizer device source batch_idx best ;;
      train_loop model train_dl dev_dl optimizer device ks' (batch_idx + 1) best'
  end.

Definition train (model : Model env) (train_dl dev_dl : loader)
    (optimizer : Optimizer env) (device save_path : string) : script unit :=
  _ <- invoke c_model_train (model_train env model) ;;
  _ <- train_loop model train_dl dev_dl optimizer device
         (seq 0 (dataloader_len env train_dl)) 1 (Finite 0) ;;
  ret tt.

(** [data[0] for data in rows] *)
Fixpoint first_fields (rows : list row) : script (list string) :=
  match rows with
  | [] => ret []
  | [] :: _ => raise IndexError
  | (s :: _) :: rows' =>
      rest <- first_fields rows' ;;
      ret (s :: rest)
  end.

(** [DataLoader(dataset, batch_size=batch_size, shuffle=True, num_workers=1)] *)
Definition new_DataLoader (ds : dataset (Tokenizer env)) (bs : pynum) : script loader :=
  _ <- invoke (c_DataLoader bs) (DataLoader_init env ds bs) ;;
  ret (mkDataLoader ds bs).

(** [torch.device("cuda:0" if torch.cuda.is_available() else "cpu")] *)
Definition select_device : script string :=
  fun w => (Ok (if cuda_is_available env w then "cuda:0" else "cpu"), w, []).

Definition main (args0 : Args) : script unit :=
  d <- select_device ;;
  let args := set_device args0 d in
  let train_path_sp := String.append (data_path args) "cnsd-sts-train.txt" in
  let train_path_unsp := String.append (data_path args) "cnsd-sts-train_unsup.txt" in
  let test_path_sp := String.append (data_path args) "cnsd-sts-test.txt" in
  test_data_source <- invoke (c_load_sts_data test_path_sp)
                        (load_sts_data env test_path_sp) ;;
  tokenizer <- invoke (c_from_pretrained (pretrain_model_path args))
                 (from_pretrained env (pretrain_model_path args)) ;;
  train_dataset <-
    (if un_supervise args then
       train_data_source <- invoke (c_load_sts_data_unsup train_path_unsp)
                              (load_sts_data_unsup env train_path_unsp) ;;
       train_sents <- first_fields train_data_source ;;
       ret (TrainDataset train_sents tokenizer (max_length args))
     else
       train_data_source <- invoke (c_load_sts_data train_path_sp)
                              (load_sts_data env train_path_sp) ;;
       ret (TestDataset train_data_source tokenizer (max_length args))) ;;
  train_dataloader <- new_DataLoader train_dataset (batch_size args) ;;
  let test_dataset := TestDataset test_data_source tokenizer (max_length args) in
  test_dataloader <- new_DataLoader test_dataset (batch_size args) ;;
  _ <- py_assert (str_in (pooler args) pooler_choices) ;;
  model0 <- invoke (c_SimcseModel (pretrain_model_path args) (pooler args) (dropout args))
              (SimcseModel_init env (pretrain_model_path args) (pooler args)
                 (dropout args)) ;;
  model <- invoke (c_model_to (device args)) (model_to env model0 (device args)) ;;
  optimizer <- invoke (c_AdamW (lr args)) (AdamW_init env model (lr args)) ;;
  train model train_dataloader test_dataloader optimizer (device args) (save_path args).

(** *** The entry point: argparse, then the log sink, then [main] *)

Definition default_args : Args :=
  mkArgs "cpu" "./model_save" false (Finite (3 # 100000)) (Finite (15 # 100))
         (PyInt 4) 16 "../data/STS-B/" "bert-base-chinese" "first-last-avg".

Definition set_save_path (a : Args) (v : string) : Args :=
  mkArgs (device a) v (un_supervise a) (lr a) (dropout a) (batch_size a)
         (max_length a) (data_path a) (pretrain_model_path a) (pooler a).
Definition set_un_supervise (a : Args) (v : bool) : Args :=
  mkArgs (device a) (save_path a) v (lr a) (dropout a) (batch_size a)
         (max_length a) (data_path a) (pretrain_model_path a) (pooler a).
Definition set_lr (a : Args) (v : pyfloat) : Args :=
  mkArgs (device a) (save_path a) (un_supervise a) v (dropout a) (batch_size a)
         (max_length a) (data_path a) (pretrain_model_path a) (pooler a).
Definition set_dropout (a : Args) (v : pyfloat) : Args :=
  mkArgs (device a) (save_path a) (un_supervise a) (lr a) v (batch_size a)
         (max_length a) (data_path a) (pretrain_model_path a) (pooler a).
Definition set_batch_size (a : Args) (v : pynum) : Args :=
  mkArgs (device a) (save_path a) (un_supervise a) (lr a) (dropout a) v
         (max_length a) (data_path a) (pretrain_model_path a) (pooler a).
Definition set_max_length (a : Args) (v : Z) : Args :=
  mkArgs (device a) (save_path a) (un_supervise a) (lr a) (dropout a) (batch_size a)
         v (data_path a) (pretrain_model_path a) (pooler a).
Definition set_data_path (a : Args) (v : string) : Args :=
  mkArgs (device a) (save_path a) (un_supervise a) (lr a) (dropout a) (batch_size a)
         (max_length a) v (pretrain_model_path a) (pooler a).
Definition set_pretrain_model_path (a : Args) (v : string) : Args :=
  mkArgs (device a) (save_path a) (un_supervise a) (lr a) (dropout a) (batch_size a)
         (max_length a) (data_path a) v (pooler a).
Definition set_pooler (a : Args) (v : string) : Args :=
  mkArgs (device a) (save_path a) (un_supervise a) (lr a) (dropout a) (batch_size a)
         (max_length a) (data_path a) (pretrain_model_path a) v.

(** [bool(v)] on a string: true unless the string is empty. *)
Definition py_bool (v : string) : bool := negb (String.eqb v "").

(** One [--flag value] of the command line, stored after the conversion
    its [add_argument] names.  argparse leaves through [SystemExit(2)] on
    an unknown flag, a failed conversion or a value outside [choices]. *)
Definition parse_option (a : Args) (opt : string * string) : outcome Args :=
  let name := fst opt in
  let v := snd opt in
  if String.eqb name "--device" then Ok (set_device a v)
  else if String.eqb name "--save_path" then Ok (set_save_path a v)
  else if String.eqb name "--un_supervise" then Ok (set_un_supervise a (py_bool v))
  else if String.eqb name "--lr" then
    match py_float env v with
    | Some x => Ok (set_lr a x)
    | None => Raise (SystemExit 2)
    end
  else if String.eqb name "--dropout" then
    match py_float env v with
    | Some x => Ok (set_dropout a x)
    | None => Raise (SystemExit 2)
    end
  else if String.eqb name "--batch_size" then
    match py_float env v with
    | Some x => Ok (set_batch_size a (PyFloat x))
    | None => Raise (SystemExit 2)
    end
  else if String.eqb name "--max_length" then
    match py_int env v with
    | Some n => Ok (set_max_length a n)
    | None => Raise (SystemExit 2)
    end
  else if String.eqb name "--data_path" then Ok (set_data_path a v)
  else if String.eqb name "--pretrain_model_path" then
    Ok (set_pretrain_model_path a v)
  else if String.eqb name "--pooler" then
    if str_in v pooler_choices then Ok (set_pooler a v) else Raise (SystemExit 2)
  else Raise (SystemExit 2).

(** The options of the command line, left to right; a flag given twice
    keeps its last value. *)
Fixpoint parse_options (a : Args) (cli : list (string * string)) : outcome Args :=
  match cli with
  | [] => Ok a
  | opt :: cli' =>
      match parse_option a opt with
      | Ok a' => parse_options a' cli'
      | Raise e => Raise e
      end
  end.

Definition parse_args (cli : list (string * string)) : outcome Args :=
  parse_options default_args cli.

Definition lift {A} (r : outcome A) : script A :=
  match r with
  | Ok a => ret a
  | Raise e => raise e
  end.

(** The [if __name__ == "__main__":] block. *)
Definition __main__ (cli : list (string * string)) : script unit :=
  args <- lift (parse_args cli) ;;
  _ <- invoke (c_logger_add "../log/train.log")
         (logger_add env "../log/train.log") ;;
  _ <- emit (LogInfo (MsgArgs args)) ;;
  main args.

End Script.

(** ** Reading traces *)

Definition is_threw (ev : event) : bool :=
  match ev with
  | Call _ (Threw _) => true
  | _ => false
  end.

Definition is_torch_save (ev : event) : bool :=
  match ev with
  | Call (c_torch_save _) _ => true
  | _ => false
  end.

Definition is_log (ev : event) : bool :=
  match ev with
  | LogInfo _ => true
  | _ => false
  end.

Definition is_args_log (ev : event) : bool :=
  match ev with
  | LogInfo (MsgArgs _) => true
  | _ => false
  end.

(** The events that leave something on disk: a record sent to the log
    sink (the file [../log/train.log]), the creation of that sink, and a
    checkpoint.  tqdm's bar is drawn on the terminal only. *)
Definition writes_file (ev : event) : bool :=
  match ev with
  | LogInfo _ => true
  | Call (c_logger_add _) _ => true
  | Call (c_torch_save _) _ => true
  | _ => false
  end.

(** The events of a training step, in the pipeline's vocabulary. *)
Definition is_training_call (ev : event) : bool :=
  match ev with
  | Call (c_forward _ _ _) _ => true
  | Call c_simcse_unsup_loss _ => true
  | Call c_zero_grad _ => true
  | Call c_backward _ => true
  | Call c_optimizer_step _ => true
  | _ => false
  end.

(** The reshaping and moving of the three tensors of a batch. *)
Definition is_reshape_event (ev : event) : bool :=
  match ev with
  | Call (c_view _ _) Done => true
  | Call (c_tensor_to _ _) Done => true
  | _ => false
  end.

(** The correlation coefficients [spearmanr] returned, oldest first. *)
Fixpoint observed_corrcoefs (tr : trace) : list pyfloat :=
  match tr with
  | [] => []
  | Call (c_spearmanr _ _) (DoneFloat c) :: tr' => c :: observed_corrcoefs tr'
  | _ :: tr' => observed_corrcoefs tr'
  end.

(** A trace without the record of the parsed arguments. *)
Definition drop_args_log (tr : trace) : trace :=
  filter (fun ev => negb (is_args_log ev)) tr.

(** [best] is the largest of 0 and the coefficients seen: it is one of
    them, it is a number no smaller than 0, and none of them is above
    it. *)
Definition is_running_max (best : pyfloat) (seen : list pyfloat) : Prop :=
  In best (Finite 0 :: seen) /\
  py_le (Finite 0) best = true /\
  forallb (fun c => negb (py_lt best c)) seen = true.

(** [if best < corrcoef: best = corrcoef] *)
Definition new_best (best corrcoef : pyfloat) : pyfloat :=
  if py_lt best corrcoef then corrcoef else best.



Definition is_TrainDataset {T} (ds : dataset T) : bool :=
  match ds with
  | TrainDataset _ _ _ => true
  | TestDataset _ _ _ => false
  end.

Section Statements.

Variable env : Env.

Local Abbreviation script := (prog (World env)).
Local Abbreviation loader := (DataLoader (Tokenizer env)).

(** A run in which nothing was caught: a library call that threw is the
    last event of the run, and the run ends in what it threw. *)
Definition uncaught {A} (x : run (World env) A) : Prop :=
  forall c n, In (Call c (Threw n)) (run_trace x) ->
    run_result x = Raise (FrameworkError n) /\
    exists tr0, run_trace x = tr0 ++ [Call c (Threw n)] /\
                forallb (fun ev => negb (is_threw ev)) tr0 = true.

(** Two runs that agree on everything but the record of the parsed
    arguments. *)
Definition same_but_args_log {A} (x y : run (World env) A) : Prop :=
  run_result x = run_result y /\
  run_world x = run_world y /\
  drop_args_log (run_trace x) = drop_args_log (run_trace y).

(** Lines 78 to 100 of [main]: everything before the assertion, ending
    with the two DataLoaders. *)
Definition main_until_assert (args0 : Args) : script (loader * loader) :=
  d <- select_device env ;;
  let args := set_device args0 d in
  let train_path_sp := String.append (data_path args) "cnsd-sts-train.txt" in
  let train_path_unsp := String.append (data_path args) "cnsd-sts-train_unsup.txt" in
  let test_path_sp := String.append (data_path args) "cnsd-sts-test.txt" in
  test_data_source <- invoke (c_load_sts_data test_path_sp)
                        (load_sts_data env test_path_sp) ;;
  tokenizer <- invoke (c_from_pretrained (pretrain_model_path args))
                 (from_pretrained env (pretrain_model_path args)) ;;
  train_dataset <-
    (if un_supervise args then
       train_data_source <- invoke (c_load_sts_data_unsup train_path_unsp)
                              (load_sts_data_unsup env train_path_unsp) ;;
       train_sents <- first_fields env train_data_source ;;
       ret (TrainDataset train_sents tokenizer (max_length args))
     else
       train_data_source <- invoke (c_load_sts_data train_path_sp)
                              (load_sts_data env train_path_sp) ;;
       ret (TestDataset train_data_source tokenizer (max_length args))) ;;
  train_dataloader <- new_DataLoader env train_dataset (batch_size args) ;;
  let test_dataset := TestDataset test_data_source tokenizer (max_length args) in
  test_dataloader <- new_DataLoader env test_dataset (batch_size args) ;;
  ret (train_dataloader, test_dataloader).

(** *** [evaluation], as the specification words it

    For each batch the cosine similarities of the source and target
    embeddings and the gold labels; then one Spearman correlation between
    all the labels and all the similarities. *)

Definition embed (model : Model env) (d : encoding) (device : string) : script (Output env) :=
  ids <- squeezed env d "input_ids" device ;;
  mask <- squeezed env d "attention_mask" device ;;
  types <- squeezed env d "token_type_ids" device ;;
  invoke (c_forward ids mask types) (forward env model ids mask types).

Definition batch_similarities (model : Model env) (device : string) (b : batch)
  : script (list pyfloat * list Z) :=
  x <- unpack3 env b ;;
  source_pred <- embed model (fst (fst x)) device ;;
  target_pred <- embed model (snd (fst x)) device ;;
  sim <- invoke c_cosine_similarity (cosine_similarity env source_pred target_pred) ;;
  ret (sim, snd x).

Fixpoint all_batch_similarities (model : Model env) (dataloader : loader)
    (device : string) (ks : list nat) : script (list (list pyfloat * list Z)) :=
  match ks with
  | [] => ret []
  | k :: ks' =>
      b <- next_batch env dataloader k ;;
      x <- batch_similarities model device b ;;
      rest <- all_batch_similarities model dataloader device ks' ;;
      ret (x :: rest)
  end.

Definition evaluation_spec (model : Model env) (dataloader : loader) (device : string)
  : script pyfloat :=
  _ <- invoke c_model_eval (model_eval env model) ;;
  per_batch <- with_no_grad env
                 (all_batch_similarities model dataloader device
                    (seq 0 (dataloader_len env dataloader))) ;;
  call_spearmanr env (List.concat (map snd per_batch)) (List.concat (map fst per_batch)).

(** *** The events of one training step, and of a whole run

    A completed step leaves, in this order: the reshaping of the batch,
    the forward pass, the loss, the zeroing of the gradients, the backward
    pass, the optimizer step, the loss record, one complete run of
    [evaluation], the return to training mode and, when the coefficient
    is a new best, its record. *)
Definition step_events (model : Model env) (dev_dl : loader) (device : string)
    (batch_idx : Z) (best : pyfloat) (seg : trace) (best' : pyfloat) : Prop :=
  exists prep ids mask types x w_e corrcoef,
    forallb is_reshape_event prep = true /\
    run_result (evaluation env model dev_dl device w_e) = Ok corrcoef /\
    best' = new_best best corrcoef /\
    seg = prep
          ++ [Call (c_forward ids mask types) Done;
              Call c_simcse_unsup_loss Done;
              Call c_zero_grad Done;
              Call c_backward Done;
              Call c_optimizer_step Done;
              Call c_loss_item Done;
              LogInfo (MsgLoss x)]
          ++ run_trace (evaluation env model dev_dl device w_e)
          ++ [Call c_model_train Done]
          ++ (if py_lt best corrcoef
              then [LogInfo (MsgHigher corrcoef batch_idx)] else []).

Inductive loop_events (model : Model env) (dev_dl : loader) (device : string)
  : list nat -> Z -> pyfloat -> trace -> pyfloat -> Prop :=
| loop_done (batch_idx : Z) (best : pyfloat) :
    loop_events model dev_dl device [] batch_idx best [] best
| loop_step (k : nat) (ks : list nat) (batch_idx : Z) (best best' best'' : pyfloat)
    (seg rest : trace) :
    step_events model dev_dl device batch_idx best seg best' ->
    loop_events model dev_dl device ks (batch_idx + 1) best' rest best'' ->
    loop_events model dev_dl device (k :: ks) batch_idx best
      ([Call (c_next_batch k) Done; TqdmBar k] ++ seg ++ rest) best''.

End Statements.

(** ** A small environment, to run the script on concrete inputs

    Two data rows per file, one row per batch, a model whose similarity
    scores grow with the number of optimizer steps taken. *)

Record toy_world := mkToyWorld {
  files_present : bool;
  cuda : bool;
  steps : nat
}.

Definition digit_of (c : ascii) : option Z :=
  let n := nat_of_ascii c in
  if (Nat.leb 48 n && Nat.leb n 57)%bool then Some (Z.of_nat (n - 48)) else None.

Fixpoint digits_value (s : string) (acc : Z) : option Z :=
  match s with
  | EmptyString => Some acc
  | String c s' =>
      match digit_of c with
      | Some d => digits_value s' (10 * acc + d)
      | None => None
      end
  end.

(** [int(s)] on a string of decimal digits. *)
Definition toy_int (s : string) : option Z :=
  match s with
  | EmptyString => None
  | _ => digits_value s 0
  end.

(** [float(s)] on a string of decimal digits. *)
Definition toy_float (s : string) : option pyfloat :=
  match toy_int s with
  | Some z => Some (Finite (z # 1))
  | None => None
  end.

Definition toy_rows : list row := [["a"; "b"; "1"]; ["c"; "d"; "0"]].

Definition toy_pair_tensor (k : nat) : tensor :=
  mkTensor [1; 2; 3] (map (fun i => Z.of_nat k * 10 + i) [0; 1; 2; 3; 4; 5]).

Definition toy_single_tensor (k : nat) : tensor :=
  mkTensor [1; 1; 3] (map (fun i => Z.of_nat k * 10 + i) [0; 1; 2]).

Definition toy_encoding (t : tensor) : encoding := mkEncoding t t t.

Definition toy_load (w : toy_world) : reply (list row) * toy_world :=
  if files_present w then (Returns toy_rows, w)
  else (Throws "FileNotFoundError", w).

Definition toy_env : Env :=
  mkEnv toy_world unit unit unit unit unit
    toy_float
    toy_int
    (fun _ w => (Returns tt, w))
    cuda
    (fun _ bs w =>
       match bs with
       | PyInt z => if 0 <? z then (Returns tt, w) else (Throws "ValueError", w)
       | PyFloat _ => (Throws "ValueError", w)
       end)
    (fun dl =>
       match dl_dataset dl with
       | TrainDataset sents _ _ => List.length sents
       | TestDataset rows _ _ => List.length rows
       end)
    (fun _ _ w => (Returns tt, w))
    (fun w => w)
    (fun w => w)
    (fun _ _ w => (Returns [Finite (Z.of_nat (steps w) # 10)], w))
    (fun _ _ w => (Returns tt, w))
    (fun _ w => (Returns tt, w))
    (fun _ w => (Returns tt, w))
    (fun _ w => (Returns tt, mkToyWorld (files_present w) (cuda w) (S (steps w))))
    (fun _ w => (Returns (Finite 1), w))
    (fun _ w => if files_present w then (Returns tt, w) else (Throws "OSError", w))
    (fun labels sims =>
       match sims with
       | [] => Returns NaN
       | c :: _ => Returns c
       end)
    (fun _ w => toy_load w)
    (fun _ w => toy_load w)
    (fun _ _ _ _ k w => (Returns (toy_encoding (toy_pair_tensor k)), w))
    (fun _ _ _ _ k w =>
       (Returns (toy_encoding (toy_single_tensor k),
                 toy_encoding (toy_single_tensor (S k)), [Z.of_nat k]), w))
    (fun _ _ _ w => (Returns tt, w))
    (fun m _ w => (Returns m, w))
    (fun _ w => (Returns tt, w))
    (fun _ w => (Returns tt, w))
    (fun _ _ _ _ w => (Returns tt, w))
    (fun _ _ w => (Returns tt, w)).

Definition toy_start : toy_world := mkToyWorld true false 0.

Definition toy_no_files : toy_world := mkToyWorld false false 0.

Definition toy_loader (ds : dataset unit) : DataLoader unit := mkDataLoader ds (PyInt 4).


(** ** Invariants of runs *)

(** No library call of the trace threw. *)
Definition clean (tr : trace) : bool :=
  forallb (fun ev => negb (is_threw ev)) tr.

(** A run in which a library call threw only as its last event, the run
    ending in what the call threw. *)
Definition faithful {W A} (x : run W A) : Prop :=
  clean (run_trace x) = true \/
  exists tr0 c n,
    run_trace x = tr0 ++ [Call c (Threw n)] /\
    clean tr0 = true /\
    run_result x = Raise (FrameworkError n).

(** The result is a value, an exception of a library, or one of the
    exceptions [E] of the script's own. *)
Definition raises_within {A} (E : exn -> bool) (r : outcome A) : bool :=
  match r with
  | Ok _ => true
  | Raise (FrameworkError _) => true
  | Raise e => E e
  end.

(** A program all of whose runs emit events of [P] only, are faithful,
    and raise within [E]. *)
Definition tame {W A} (P : event -> bool) (E : exn -> bool) (m : prog W A) : Prop :=
  forall w,
    forallb P (run_trace (m w)) = true /\
    faithful (m w) /\
    raises_within E (run_result (m w)) = true.

(** The exceptions Python itself raises in [train] and [evaluation]. *)
Definition own_exn (e : exn) : bool :=
  match e with
  | AttributeError | IndexError => true
  | _ => false
  end.

Definition not_SystemExit (e : exn) : bool :=
  match e with
  | SystemExit _ => false
  | _ => true
  end.

(** The events of the loop of [evaluation]. *)
Definition eval_loop_event (ev : event) : bool :=
  match ev with
  | Call (c_next_batch _) _ => true
  | Call (c_squeeze _) _ => true
  | Call (c_tensor_to _ _) _ => true
  | Call (c_forward _ _ _) _ => true
  | Call c_cosine_similarity _ => true
  | _ => false
  end.

(** The events [train] may emit: no checkpoint, and nothing on disk but
    log records. *)
Definition train_event_ok (ev : event) : bool :=
  negb (is_torch_save ev) && implb (writes_file ev) (is_log ev).

Definition is_spearmanr (ev : event) : bool :=
  match ev with
  | Call (c_spearmanr _ _) _ => true
  | _ => false
  end.

(** The calls of [main] before the training loop starts. *)
Definition setup_event (ev : event) : bool :=
  match ev with
  | Call (c_load_sts_data _) _ => true
  | Call (c_load_sts_data_unsup _) _ => true
  | Call (c_from_pretrained _) _ => true
  | Call (c_DataLoader _) _ => true
  | Call (c_SimcseModel _ _ _) _ => true
  | Call (c_model_to _) _ => true
  | Call (c_AdamW _) _ => true
  | Call c_model_train _ => true
  | _ => false
  end.

(** A run that never reaches a forward pass, a loss or an optimizer call,
    and that ends in [AttributeError] as soon as a batch is delivered. *)
Definition stops_at_first_batch {W A} (x : run W A) : Prop :=
  forallb (fun ev => negb (is_training_call ev)) (run_trace x) = true /\
  forall k, In (Call (c_next_batch k) Done) (run_trace x) ->
            run_result x = Raise AttributeError.

(** Two argument records that differ in [device] at most. *)
Definition args_agree (a1 a2 : Args) : Prop :=
  set_device a1 "" = set_device a2 "".

Section MainTail.

Variable env : Env.

(** Lines 102 to 107 of [main]: the assertion, the model, the optimizer
    and the call of [train], given the two DataLoaders. *)
Definition main_from_assert (args : Args)
    (dls : DataLoader (Tokenizer env) * DataLoader (Tokenizer env))
  : prog (World env) unit :=
  _ <- py_assert (str_in (pooler args) pooler_choices) ;;
  model0 <- invoke (c_SimcseModel (pretrain_model_path args) (pooler args) (dropout args))
              (SimcseModel_init env (pretrain_model_path args) (pooler args)
                 (dropout args)) ;;
  model <- invoke (c_model_to (device args)) (model_to env model0 (device args)) ;;
  optimizer <- invoke (c_AdamW (lr args)) (AdamW_init env model (lr args)) ;;
  train env model (fst dls) (snd dls) optimizer (device args) (save_path args).

End MainTail.

(** ** Further readings of traces *)

(** The events of a run of [evaluation] on [device]: the switch to
    evaluation mode, the batches, their squeezing and moving (to [device]
    and nowhere else), the forward passes, the similarities and the
    correlation. *)
Definition eval_event (d : string) (ev : event) : bool :=
  match ev with
  | Call c_model_eval _ => true
  | Call (c_next_batch _) _ => true
  | Call (c_squeeze _) _ => true
  | Call (c_tensor_to _ dev) _ => String.eqb dev d
  | Call (c_forward _ _ _) _ => true
  | Call c_cosine_similarity _ => true
  | Call (c_spearmanr _ _) _ => true
  | _ => false
  end.

(** The events of a run of [train] on [device]: those of [evaluation],
    the calls of a training step, the two records [train] logs and
    tqdm's bar. *)
Definition train_run_event (d : string) (ev : event) : bool :=
  eval_event d ev ||
  match ev with
  | Call c_model_train _ => true
  | Call (c_view _ _) _ => true
  | Call c_simcse_unsup_loss _ => true
  | Call c_zero_grad _ => true
  | Call c_backward _ => true
  | Call c_optimizer_step _ => true
  | Call c_loss_item _ => true
  | LogInfo (MsgLoss _) => true
  | LogInfo (MsgHigher _ _) => true
  | TqdmBar _ => true
  | _ => false
  end.

(** The calls of lines 78 to 100 of [main]: the data files, the
    tokenizer and the two DataLoaders. *)
Definition data_event (ev : event) : bool :=
  match ev with
  | Call (c_load_sts_data _) _ => true
  | Call (c_load_sts_data_unsup _) _ => true
  | Call (c_from_pretrained _) _ => true
  | Call (c_DataLoader _) _ => true
  | _ => false
  end.

(** The events of a run of [main] that selected [device]. *)
Definition main_event (d : string) (ev : event) : bool :=
  data_event ev || train_run_event d ev ||
  match ev with
  | Call (c_SimcseModel _ _ _) _ => true
  | Call (c_model_to dev) _ => String.eqb dev d
  | Call (c_AdamW _) _ => true
  | _ => false
  end.

Definition is_forward (ev : event) : bool :=
  match ev with
  | Call (c_forward _ _ _) _ => true
  | _ => false
  end.

Definition is_cosine_similarity (ev : event) : bool :=
  match ev with
  | Call c_cosine_similarity _ => true
  | _ => false
  end.

Definition is_next_batch (ev : event) : bool :=
  match ev with
  | Call (c_next_batch _) _ => true
  | _ => false
  end.

Definition is_optimizer_step (ev : event) : bool :=
  match ev with
  | Call c_optimizer_step _ => true
  | _ => false
  end.

Definition is_loss_record (ev : event) : bool :=
  match ev with
  | LogInfo (MsgLoss _) => true
  | _ => false
  end.

(** How many events of a trace satisfy [P]. *)
Definition count_events (P : event -> bool) (tr : trace) : nat :=
  List.length (filter P tr).




(** The view in [2 * B] rows of a [B, 1, 2 * H] tensor [t]: the two
    halves of sentence [b] at rows [2b] and [2b + 1]. *)
Definition halved (t t' : tensor) (B H : Z) : Prop :=
  shape t' = [B * 2; H] /\
  forall b h s, 0 <= b < B -> 0 <= h < 2 -> 0 <= s < H ->
    tensor_get t' [2 * b + h; s] = tensor_get t [b; 0; h * H + s] /\
    tensor_get t [b; 0; h * H + s] <> None.


(** The mode of the model after a trace, [true] for training: the last
    of [model.train()] and [model.eval()] to have returned decides. *)
Fixpoint mode_after (training : bool) (tr : trace) : bool :=
  match tr with
  | [] => training
  | Call c_model_train Done :: tr' => mode_after true tr'
  | Call c_model_eval Done :: tr' => mode_after false tr'
  | _ :: tr' => mode_after training tr'
  end.

(** The mode the model was in at each forward pass of a trace, oldest
    first. *)
Fixpoint forward_modes (training : bool) (tr : trace) : list bool :=
  match tr with
  | [] => []
  | Call c_model_train Done :: tr' => forward_modes true tr'
  | Call c_model_eval Done :: tr' => forward_modes false tr'
  | Call (c_forward _ _ _) _ :: tr' => training :: forward_modes training tr'
  | _ :: tr' => forward_modes training tr'
  end.

Definition is_mode_switch (ev : event) : bool :=
  match ev with
  | Call c_model_train _ => true
  | Call c_model_eval _ => true
  | _ => false
  end.

(** * Properties *)

(** ** The monad *)

Ltac run_simpl := cbv [run_result run_world run_trace fst snd] in *.

Section MonadFacts.

Context {W : Type}.

Lemma run_eta {A} (x : run W A) : x = (run_result x, run_world x, run_trace x).
Proof. destruct x as [[r w] t]. reflexivity. Qed.

Lemma bind_Ok {A B} (m : prog W A) (k : A -> prog W B) w a :
  run_result (m w) = Ok a ->
  bind m k w =
  (run_result (k a (run_world (m w))),
   run_world (k a (run_world (m w))),
   run_trace (m w) ++ run_trace (k a (run_world (m w)))).
Proof.
  unfold bind. destruct (m w) as [[r w1] t1]. run_simpl. intros ->.
  destruct (k a w1) as [[r2 w2] t2]. reflexivity.
Qed.

Lemma bind_Raise {A B} (m : prog W A) (k : A -> prog W B) w e :
  run_result (m w) = Raise e ->
  bind m k w = (Raise e, run_world (m w), run_trace (m w)).
Proof.
  unfold bind. destruct (m w) as [[r w1] t1]. run_simpl. intros ->. reflexivity.
Qed.

(** A bind that returned: both halves returned, and the trace is theirs
    in order. *)
Lemma bind_Ok_inv {A B} (m : prog W A) (k : A -> prog W B) w b :
  run_result (bind m k w) = Ok b ->
  exists a,
    run_result (m w) = Ok a /\
    run_result (k a (run_world (m w))) = Ok b /\
    run_world (bind m k w) = run_world (k a (run_world (m w))) /\
    run_trace (bind m k w) = run_trace (m w) ++ run_trace (k a (run_world (m w))).
Proof.
  destruct (run_result (m w)) as [a|e] eqn:Hm.
  - rewrite (bind_Ok _ _ _ _ Hm). simpl. intros H. exists a. auto.
  - rewrite (bind_Raise _ _ _ _ Hm). simpl. discriminate.
Qed.

Lemma invoke_Ok_inv {A} (c : call) (f : W -> reply A * W) w a :
  run_result (invoke c f w) = Ok a ->
  f w = (Returns a, run_world (invoke c f w)) /\
  run_trace (invoke c f w) = [Call c Done].
Proof.
  unfold invoke. destruct (f w) as [[x|n] w1]; simpl; intros H.
  - inversion H. subst. auto.
  - discriminate.
Qed.

Lemma invoke_pure_Ok_inv {A} (c : call) (f : option A) n (w : W) a :
  run_result (invoke_pure c f n w) = Ok a ->
  f = Some a /\ run_world (invoke_pure (W:=W) c f n w) = w /\
  run_trace (invoke_pure (W:=W) c f n w) = [Call c Done].
Proof.
  unfold invoke_pure. destruct f; simpl; intros H.
  - inversion H. subst. auto.
  - discriminate.
Qed.

(** *** Monad laws, run by run *)

Lemma bind_ret_l {A B} (a : A) (k : A -> prog W B) w :
  bind (ret a) k w = k a w.
Proof. unfold bind, ret. destruct (k a w) as [[r w2] t2]. reflexivity. Qed.

Lemma bind_assoc {A B C} (m : prog W A) (f : A -> prog W B) (g : B -> prog W C) w :
  bind (bind m f) g w = bind m (fun a => bind (f a) g) w.
Proof.
  unfold bind. destruct (m w) as [[[a|e] w1] t1]; [|reflexivity].
  destruct (f a w1) as [[[b|e] w2] t2]; [|reflexivity].
  destruct (g b w2) as [[r w3] t3]. rewrite app_assoc. reflexivity.
Qed.

Lemma bind_ext {A B} (m : prog W A) (f g : A -> prog W B) w :
  (forall a w', f a w' = g a w') -> bind m f w = bind m g w.
Proof.
  intros H. unfold bind. destruct (m w) as [[[a|e] w1] t1]; [|reflexivity].
  rewrite H. reflexivity.
Qed.

(** *** Tame programs *)

Lemma clean_app (t1 t2 : trace) : clean (t1 ++ t2) = clean t1 && clean t2.
Proof. unfold clean. apply forallb_app. Qed.

Lemma faithful_Ok_clean {A} (x : run W A) a :
  faithful x -> run_result x = Ok a -> clean (run_trace x) = true.
Proof.
  intros [H|(tr0 & c & n & _ & _ & H)] Hr; [assumption|]. congruence.
Qed.

Lemma tame_ret {A} P E (a : A) : tame (W:=W) P E (ret a).
Proof. intros w. repeat split. left. reflexivity. Qed.

Lemma tame_raise {A} P E e : E e = true -> tame (W:=W) (A:=A) P E (raise e).
Proof.
  intros He w. repeat split.
  - left. reflexivity.
  - simpl. destruct e; auto.
Qed.

Lemma tame_emit P E ev :
  P ev = true -> is_threw ev = false -> tame (W:=W) P E (emit ev).
Proof.
  intros HP Ht w. repeat split.
  - simpl. rewrite HP. reflexivity.
  - left. unfold emit, clean. simpl. rewrite Ht. reflexivity.
Qed.

Lemma tame_invoke {A} P E c (f : W -> reply A * W) :
  (forall r, P (Call c r) = true) -> tame P E (invoke c f).
Proof.
  intros HP w. unfold invoke. destruct (f w) as [[a|n] w1]; repeat split.
  - simpl. rewrite HP. reflexivity.
  - left. reflexivity.
  - simpl. rewrite HP. reflexivity.
  - right. exists [], c, n. auto.
Qed.

Lemma tame_invoke_pure {A} P E c (f : option A) n :
  (forall r, P (Call c r) = true) -> tame (W:=W) P E (invoke_pure c f n).
Proof.
  intros HP w. unfold invoke_pure. destruct f as [a|]; repeat split.
  - simpl. rewrite HP. reflexivity.
  - left. reflexivity.
  - simpl. rewrite HP. reflexivity.
  - right. exists [], c, n. auto.
Qed.

Lemma tame_bind {A B} P E (m : prog W A) (k : A -> prog W B) :
  tame P E m -> (forall a, tame P E (k a)) -> tame P E (bind m k).
Proof.
  intros Hm Hk w. specialize (Hm w). unfold faithful, bind in *.
  destruct (m w) as [[[a|e] w1] t1]; run_simpl.
  2:{ destruct Hm as (H1 & H2 & H3). repeat split; [assumption| |exact H3].
      destruct H2 as [H|(tr0 & c & n & Ht & Hc & Hr)]; [left; assumption|right].
      exists tr0, c, n. inversion Hr. auto. }
  specialize (Hk a w1). unfold faithful in Hk.
  destruct (k a w1) as [[r2 w2] t2]. run_simpl.
  destruct Hm as (HP & Hf & _). destruct Hk as (HP2 & Hf2 & HE2).
  assert (Hc : clean t1 = true).
  { destruct Hf as [H|(tr0 & c & n & _ & _ & H)]; [assumption|discriminate]. }
  repeat split.
  - rewrite forallb_app, HP, HP2. reflexivity.
  - destruct Hf2 as [H2|(tr0 & c & n & Ht & Hc0 & Hr2)].
    + left. rewrite clean_app, Hc, H2. reflexivity.
    + right. exists (t1 ++ tr0), c, n.
      rewrite Ht, app_assoc, clean_app, Hc, Hc0. auto.
  - assumption.
Qed.

Lemma tame_weaken {A} (P P' : event -> bool) (E E' : exn -> bool) (m : prog W A) :
  (forall ev, P ev = true -> P' ev = true) ->
  (forall e, E e = true -> E' e = true) ->
  tame P E m -> tame P' E' m.
Proof.
  intros HP HE Hm w. destruct (Hm w) as (H1 & H2 & H3). repeat split.
  - rewrite forallb_forall in *. auto.
  - assumption.
  - destruct (run_result (m w)) as [a|[]]; simpl in *; auto.
Qed.

Lemma tame_py_assert P E b : E AssertionError = true -> tame (W:=W) P E (py_assert b).
Proof.
  intros He. unfold py_assert. destruct b; [apply tame_ret | apply tame_raise; assumption].
Qed.

End MonadFacts.

(** ** The script is tame *)

Create HintDb tame.

Ltac tame_walk :=
  repeat (first
    [ solve [auto 1 with tame nocore]
    | apply tame_ret
    | apply tame_raise; reflexivity
    | apply tame_emit; reflexivity
    | apply tame_invoke; intros r; destruct r; reflexivity
    | apply tame_invoke_pure; intros r; destruct r; reflexivity
    | apply tame_py_assert; reflexivity
    | apply tame_bind; [ | intros ? ]
    | match goal with
      | |- tame _ _ (match ?x with _ => _ end) => destruct x
      | |- tame _ _ (fun _ => match ?x with _ => _ end) => destruct x
      end
    | progress cbv zeta ]).

Section ScriptFacts.

Variable env : Env.

Lemma tame_with_no_grad {A} P E (body : prog (World env) A) :
  tame P E body -> tame P E (with_no_grad env body).
Proof.
  intros H w. specialize (H (no_grad_enter env w)).
  unfold with_no_grad, faithful in *.
  destruct (body (no_grad_enter env w)) as [[r w1] t]. exact H.
Qed.
#[local] Hint Resolve tame_with_no_grad : tame.

Lemma tame_call_spearmanr P E labels sims :
  (forall r, P (Call (c_spearmanr labels sims) r) = true) ->
  tame P E (call_spearmanr env labels sims).
Proof.
  intros HP w. unfold call_spearmanr.
  destruct (spearmanr env labels sims) as [c|n]; repeat split.
  - simpl. rewrite HP. reflexivity.
  - left. reflexivity.
  - simpl. rewrite HP. reflexivity.
  - right. exists [], (c_spearmanr labels sims), n. auto.
Qed.

Lemma tame_select_device P E : tame P E (select_device env).
Proof. intros w. repeat split. left. reflexivity. Qed.
#[local] Hint Resolve tame_select_device : tame.

Lemma tame_lift {A} P E (r : outcome A) :
  raises_within E r = true -> tame (W:=World env) P E (lift env r).
Proof.
  intros H w. destruct r as [a|e]; repeat split; try (left; reflexivity).
  exact H.
Qed.

Lemma tame_evaluation_loop model dataloader device ks sim_tensor label_array :
  tame eval_loop_event own_exn
    (evaluation_loop env model dataloader device ks sim_tensor label_array).
Proof.
  revert sim_tensor label_array.
  induction ks as [|k ks IH]; intros sim_tensor label_array; simpl.
  - apply tame_ret.
  - unfold next_batch, unpack3, squeezed, tensor_squeeze, to_device.
    tame_walk.
Qed.
#[local] Hint Resolve tame_evaluation_loop : tame.

Lemma tame_evaluation model dataloader device :
  tame train_event_ok own_exn (evaluation env model dataloader device).
Proof.
  unfold evaluation. tame_walk.
  - apply tame_with_no_grad.
    eapply tame_weaken; [| |apply tame_evaluation_loop]; [|auto].
    intros [[] []| |]; simpl; auto.
  - apply tame_call_spearmanr. intros r; destruct r; reflexivity.
Qed.
#[local] Hint Resolve tame_evaluation : tame.

Lemma tame_train_step model dev_dl optimizer device source batch_idx best :
  tame train_event_ok own_exn
    (train_step env model dev_dl optimizer device source batch_idx best).
Proof.
  unfold train_step, batch_get, shape0, tensor_view, to_device.
  tame_walk.
Qed.
#[local] Hint Resolve tame_train_step : tame.

Lemma tame_train_loop model train_dl dev_dl optimizer device ks batch_idx best :
  tame train_event_ok own_exn
    (train_loop env model train_dl dev_dl optimizer device ks batch_idx best).
Proof.
  revert batch_idx best.
  induction ks as [|k ks IH]; intros batch_idx best; simpl.
  - apply tame_ret.
  - unfold next_batch. tame_walk.
Qed.
#[local] Hint Resolve tame_train_loop : tame.

Lemma tame_train model train_dl dev_dl optimizer device save_path :
  tame train_event_ok own_exn
    (train env model train_dl dev_dl optimizer device save_path).
Proof.
  unfold train. tame_walk.
Qed.
#[local] Hint Resolve tame_train : tame.

Lemma tame_first_fields P rows : tame P own_exn (first_fields env rows).
Proof.
  induction rows as [|[|s r] rows IH]; simpl; tame_walk.
Qed.
#[local] Hint Resolve tame_first_fields : tame.

Lemma own_exn_not_SystemExit e : own_exn e = true -> not_SystemExit e = true.
Proof. destruct e; simpl; auto. Qed.

Lemma tame_train_in_main model train_dl dev_dl optimizer device save_path :
  tame train_event_ok not_SystemExit
    (train env model train_dl dev_dl optimizer device save_path).
Proof.
  eapply tame_weaken; [| |apply tame_train]; auto using own_exn_not_SystemExit.
Qed.
#[local] Hint Resolve tame_train_in_main : tame.

Lemma tame_first_fields_in_main rows :
  tame train_event_ok not_SystemExit (first_fields env rows).
Proof.
  eapply tame_weaken; [| |apply (tame_first_fields train_event_ok)];
    auto using own_exn_not_SystemExit.
Qed.
#[local] Hint Resolve tame_first_fields_in_main : tame.

Lemma tame_main args :
  tame train_event_ok not_SystemExit (main env args).
Proof. unfold main, new_DataLoader. tame_walk. Qed.
#[local] Hint Resolve tame_main : tame.

Lemma tame_main_until_assert args :
  tame setup_event own_exn (main_until_assert env args).
Proof.
  unfold main_until_assert, new_DataLoader. tame_walk.
Qed.

Lemma tame_entry_point cli :
  tame (fun _ => true) (fun _ => true) (__main__ env cli).
Proof.
  unfold __main__.
  apply tame_bind; [|intros args].
  { apply tame_lift. destruct (parse_args env cli) as [a|[]]; reflexivity. }
  apply tame_bind; [apply tame_invoke; reflexivity|intros _].
  apply tame_bind; [apply tame_emit; reflexivity|intros _].
  eapply tame_weaken; [| |apply tame_main]; auto.
Qed.

End ScriptFacts.

(** ** The claims *)

(** *** No checkpoint is written *)

(** C3.  Whatever the run of [train], completed or cut short by an
    exception, its trace holds no [torch.save], and every event of it
    that leaves something on disk is a log record. *)
Theorem train_writes_no_checkpoint env model train_dl dev_dl optimizer device save_path w :
  forallb (fun ev => negb (is_torch_save ev) && implb (writes_file ev) (is_log ev))
    (run_trace (train env model train_dl dev_dl optimizer device save_path w)) = true.
Proof.
  destruct (tame_train env model train_dl dev_dl optimizer device save_path w)
    as (H & _ & _).
  exact H.
Qed.

(** *** Exceptions of the libraries reach the caller *)

Lemma faithful_uncaught env {A} (x : run (World env) A) :
  faithful x -> uncaught env x.
Proof.
  intros Hf c n Hin. destruct Hf as [Hc|(tr0 & c' & n' & Ht & Hc & Hr)].
  - unfold clean in Hc. rewrite forallb_forall in Hc.
    apply Hc in Hin. discriminate.
  - rewrite Ht in Hin. apply in_app_or in Hin. destruct Hin as [Hin|[Heq|[]]].
    + unfold clean in Hc. rewrite forallb_forall in Hc.
      apply Hc in Hin. discriminate.
    + inversion Heq. subst. split; [assumption|].
      exists tr0. auto.
Qed.

(** C8.  Neither the entry point, nor [main], nor [train], nor
    [evaluation] catches anything: in each of their runs a library call
    that threw is the last thing that happened, and the run ends in the
    exception the call threw. *)
Theorem framework_exceptions_propagate env :
  (forall cli w, uncaught env (__main__ env cli w)) /\
  (forall args w, uncaught env (main env args w)) /\
  (forall model train_dl dev_dl optimizer device save_path w,
      uncaught env (train env model train_dl dev_dl optimizer device save_path w)) /\
  (forall model dataloader device w,
      uncaught env (evaluation env model dataloader device w)).
Proof.
  split; [|split; [|split]].
  - intros cli w. apply faithful_uncaught, (tame_entry_point env cli w).
  - intros args w. apply faithful_uncaught, (tame_main env args w).
  - intros model train_dl dev_dl optimizer device save_path w.
    apply faithful_uncaught,
      (tame_train env model train_dl dev_dl optimizer device save_path w).
  - intros model dataloader device w.
    apply faithful_uncaught, (tame_evaluation env model dataloader device w).
Qed.

(** With the data files missing, [load_sts_data] throws and [main] ends
    in that exception. *)
Lemma framework_exceptions_propagate_witness :
  run_result (main toy_env default_args toy_no_files)
  = Raise (FrameworkError "FileNotFoundError").
Proof.
  apply (proj1 (proj2 (framework_exceptions_propagate toy_env))
           default_args toy_no_files
           (c_load_sts_data "../data/STS-B/cnsd-sts-test.txt") "FileNotFoundError").
  vm_compute. left. reflexivity.
Defined.

(** *** The reshaping of a training batch *)



Lemma offset_2 (R L r s : Z) :
  0 <= r < R -> 0 <= s < L ->
  offset [R; L] [r; s] 0 = Some (r * L + s).
Proof.
  intros Hr Hs. cbn [offset].
  replace (0 <=? r) with true by (symmetry; apply Z.leb_le; lia).
  replace (r <? R) with true by (symmetry; apply Z.ltb_lt; lia).
  replace (0 <=? s) with true by (symmetry; apply Z.leb_le; lia).
  replace (s <? L) with true by (symmetry; apply Z.ltb_lt; lia).
  cbn [andb]. f_equal; try ring.
Qed.


Section Reshape.

Variable env : Env.







End Reshape.


(** *** The order of a training step *)

Ltac ok_bind H a Hm :=
  let Hk := fresh "Hk" in
  let Hw := fresh "Hw" in
  let Ht := fresh "Ht" in
  destruct (bind_Ok_inv _ _ _ _ H) as (a & Hm & Hk & Hw & Ht);
  rewrite Ht; clear Ht Hw H; rename Hk into H.

Section StepOrder.

Variable env : Env.

Lemma trace_emit ev (w : World env) : run_trace (emit ev w) = [ev].
Proof. reflexivity. Qed.

Lemma to_device_Ok_inv t device w a :
  run_result (to_device env t device w) = Ok a ->
  a = t /\ run_trace (to_device env t device w) = [Call (c_tensor_to t device) Done].
Proof.
  unfold to_device. intros H.
  destruct (bind_Ok_inv _ _ _ _ H) as (u & Hm & Hk & _ & Ht).
  rewrite Ht. apply invoke_Ok_inv in Hm. destruct Hm as [_ Hm]. rewrite Hm.
  cbv [ret run_result fst] in Hk. inversion Hk. auto.
Qed.

Lemma tensor_view_Ok_inv t rows w a :
  run_result (tensor_view env (Some t) rows w) = Ok a ->
  run_world (tensor_view env (Some t) rows w) = w /\
  run_trace (tensor_view env (Some t) rows w) = [Call (c_view t rows) Done].
Proof.
  unfold tensor_view. intros H. apply invoke_pure_Ok_inv in H. tauto.
Qed.

Lemma train_step_Ok model dev_dl optimizer device source batch_idx best w best' :
  run_result (train_step env model dev_dl optimizer device source batch_idx best w)
  = Ok best' ->
  step_events env model dev_dl device batch_idx best
    (run_trace (train_step env model dev_dl optimizer device source batch_idx best w))
    best'.
Proof.
  unfold train_step. intros H.
  destruct source as [d|s t l]; [|discriminate H].
  unfold batch_get in *.
  change (enc_get d "input_ids") with (Some (input_ids d)) in *.
  change (enc_get d "attention_mask") with (Some (attention_mask d)) in *.
  change (enc_get d "token_type_ids") with (Some (token_type_ids d)) in *.
  rewrite bind_ret_l in *. unfold shape0 in *.
  destruct (shape (input_ids d)) as [|B sh]; [discriminate H|].
  rewrite !bind_ret_l in *.
  ok_bind H ids2 H1. destruct (tensor_view_Ok_inv _ _ _ _ H1) as [W1 T1].
  rewrite T1, W1 in *. clear H1 T1 W1.
  ok_bind H ids H1. destruct (to_device_Ok_inv _ _ _ _ H1) as [-> T1].
  rewrite T1. clear T1. rewrite bind_ret_l in *.
  ok_bind H am2 H2. destruct (tensor_view_Ok_inv _ _ _ _ H2) as [W2 T2].
  rewrite T2, W2 in *. clear H2 T2 W2.
  ok_bind H am H2. destruct (to_device_Ok_inv _ _ _ _ H2) as [-> T2].
  rewrite T2. clear T2. rewrite bind_ret_l in *.
  ok_bind H tt2 H3. destruct (tensor_view_Ok_inv _ _ _ _ H3) as [W3 T3].
  rewrite T3, W3 in *. clear H3 T3 W3.
  ok_bind H tti H3. destruct (to_device_Ok_inv _ _ _ _ H3) as [-> T3].
  rewrite T3. clear T3.
  ok_bind H out H4. apply invoke_Ok_inv in H4. destruct H4 as [_ T4]. rewrite T4.
  ok_bind H loss H5. apply invoke_Ok_inv in H5. destruct H5 as [_ T5]. rewrite T5.
  ok_bind H u6 H6. apply invoke_Ok_inv in H6. destruct H6 as [_ T6]. rewrite T6.
  ok_bind H u7 H7. apply invoke_Ok_inv in H7. destruct H7 as [_ T7]. rewrite T7.
  ok_bind H u8 H8. apply invoke_Ok_inv in H8. destruct H8 as [_ T8]. rewrite T8.
  rewrite Z.mod_1_r in *. cbn [Z.eqb] in *.
  ok_bind H x H9. apply invoke_Ok_inv in H9. destruct H9 as [_ T9]. rewrite T9.
  ok_bind H u10 H10. clear H10. rewrite trace_emit.
  ok_bind H corrcoef H11.
  ok_bind H u12 H12. apply invoke_Ok_inv in H12. destruct H12 as [_ T12]. rewrite T12.
  match type of H11 with run_result (evaluation _ _ _ _ ?w0) = _ =>
    exists [Call (c_view (input_ids d) (B * 2)) Done; Call (c_tensor_to ids2 device) Done;
            Call (c_view (attention_mask d) (B * 2)) Done; Call (c_tensor_to am2 device) Done;
            Call (c_view (token_type_ids d) (B * 2)) Done; Call (c_tensor_to tt2 device) Done],
           ids2, am2, tt2, x, w0, corrcoef
  end.
  split; [reflexivity|]. split; [exact H11|].
  unfold new_best. destruct (py_lt best corrcoef).
  - ok_bind H u13 H13. cbv [ret run_result fst] in H. inversion H.
    split; reflexivity.
  - cbv [ret run_result fst] in H. inversion H. split; reflexivity.
Qed.

End StepOrder.

Section LoopOrder.

Variable env : Env.

Lemma next_batch_Ok_inv dl k w b :
  run_result (next_batch env dl k w) = Ok b ->
  run_trace (next_batch env dl k w) = [Call (c_next_batch k) Done].
Proof.
  unfold next_batch. destruct (dl_dataset dl); intros H;
    destruct (bind_Ok_inv _ _ _ _ H) as (a & Hm & _ & _ & Ht);
    rewrite Ht; apply invoke_Ok_inv in Hm; destruct Hm as [_ Hm]; rewrite Hm;
    reflexivity.
Qed.

Lemma train_loop_Ok model train_dl dev_dl optimizer device ks batch_idx best w best' :
  run_result (train_loop env model train_dl dev_dl optimizer device ks batch_idx best w)
  = Ok best' ->
  loop_events env model dev_dl device ks batch_idx best
    (run_trace (train_loop env model train_dl dev_dl optimizer device ks batch_idx best w))
    best'.
Proof.
  revert batch_idx best w.
  induction ks as [|k ks IH]; intros batch_idx best w H.
  - cbv [train_loop ret run_result fst] in H. inversion H. apply loop_done.
  - cbn [train_loop] in *.
    ok_bind H source H1. rewrite (next_batch_Ok_inv _ _ _ _ H1). clear H1.
    ok_bind H u H2. clear H2. rewrite trace_emit.
    ok_bind H best1 H3.
    apply train_step_Ok in H3. apply IH in H.
    apply (loop_step env model dev_dl device k ks batch_idx best best1 best' _ _ H3 H).
Qed.

Lemma observed_app (t1 t2 : trace) :
  observed_corrcoefs (t1 ++ t2) = observed_corrcoefs t1 ++ observed_corrcoefs t2.
Proof.
  induction t1 as [|ev t1 IH]; [reflexivity|].
  destruct ev as [[] []| |]; simpl; rewrite ?IH; reflexivity.
Qed.

Lemma observed_none (tr : trace) :
  forallb (fun ev => negb (is_spearmanr ev)) tr = true ->
  observed_corrcoefs tr = [].
Proof.
  induction tr as [|ev tr IH]; [reflexivity|].
  simpl. intros H. apply andb_prop in H. destruct H as [H1 H2].
  destruct ev as [[] []| |]; simpl in *; try discriminate; auto.
Qed.

Lemma forallb_impl {A} (P Q : A -> bool) (l : list A) :
  (forall a, P a = true -> Q a = true) -> forallb P l = true -> forallb Q l = true.
Proof. intros H. rewrite !forallb_forall. auto. Qed.

(** A completed [evaluation] called [spearmanr] once, last, and returned
    what it returned. *)
Lemma evaluation_Ok_observed model dataloader device w c :
  run_result (evaluation env model dataloader device w) = Ok c ->
  observed_corrcoefs (run_trace (evaluation env model dataloader device w)) = [c].
Proof.
  unfold evaluation. intros H.
  ok_bind H u H1. apply invoke_Ok_inv in H1. destruct H1 as [_ T1]. rewrite T1.
  ok_bind H acc H2.
  match goal with |- context [run_trace (with_no_grad env ?body ?w0)] =>
    destruct (tame_with_no_grad env _ _ body
                (tame_evaluation_loop env model dataloader device _ [] []) w0)
      as (HP & _ & _)
  end.
  rewrite !observed_app. rewrite (observed_none (run_trace (with_no_grad _ _ _))).
  2:{ revert HP. apply forallb_impl. intros [[] []| |]; simpl; auto. }
  unfold call_spearmanr in *.
  destruct (spearmanr env (snd acc) (fst acc)) as [c'|n]; [|discriminate H].
  cbv [run_result fst] in H. inversion H. reflexivity.
Qed.

Lemma step_events_observed model dev_dl device batch_idx best seg best' :
  step_events env model dev_dl device batch_idx best seg best' ->
  exists c, observed_corrcoefs seg = [c] /\ best' = new_best best c.
Proof.
  intros (prep & ids & mask & types & x & w_e & c & Hp & He & Hb & Hs).
  exists c. split; [|assumption]. subst seg.
  rewrite !observed_app. rewrite (evaluation_Ok_observed _ _ _ _ _ He).
  rewrite (observed_none prep).
  2:{ revert Hp. apply forallb_impl. intros [[] []| |]; simpl; auto; discriminate. }
  destruct (py_lt best c); reflexivity.
Qed.

Lemma loop_events_observed model dev_dl device ks batch_idx best tr best' :
  loop_events env model dev_dl device ks batch_idx best tr best' ->
  best' = fold_left new_best (observed_corrcoefs tr) best /\
  List.length (observed_corrcoefs tr) = List.length ks.
Proof.
  induction 1 as [|k ks batch_idx best best1 best2 seg rest Hs Hl [IH1 IH2]].
  - split; reflexivity.
  - destruct (step_events_observed _ _ _ _ _ _ _ Hs) as (c & Hc & Hb).
    rewrite !observed_app, Hc. cbn [observed_corrcoefs app fold_left List.length].
    rewrite <- Hb. split; [assumption|]. rewrite IH2. reflexivity.
Qed.

(** C7.  In a run of [train] that completes, what happened is the switch
    to training mode and then, batch after batch in the order of the
    DataLoader: the batch, its reshaping, the forward pass, the loss, the
    zeroing of the gradients, the backward pass, the optimizer step, the
    loss record, one complete [evaluation], the return to training mode
    and the record of a new best.  The test [batch_idx % 1 == 0] holds
    for every batch, so there are as many evaluations as batches. *)
Theorem train_runs_pipeline_in_order
    model train_dl dev_dl optimizer device save_path w :
  run_result (train env model train_dl dev_dl optimizer device save_path w) = Ok tt ->
  exists tr best,
    run_trace (train env model train_dl dev_dl optimizer device save_path w)
    = Call c_model_train Done :: tr /\
    loop_events env model dev_dl device (seq 0 (dataloader_len env train_dl))
      1 (Finite 0) tr best /\
    List.length (observed_corrcoefs tr) = dataloader_len env train_dl.
Proof.
  unfold train. intros H.
  ok_bind H u H1. apply invoke_Ok_inv in H1. destruct H1 as [_ T1]. rewrite T1.
  ok_bind H best H2. clear H.
  pose proof (train_loop_Ok _ _ _ _ _ _ _ _ _ _ H2) as HL.
  eexists _, best. split.
  - cbn [app]. rewrite app_nil_r. reflexivity.
  - split; [exact HL|].
    destruct (loop_events_observed _ _ _ _ _ _ _ _ HL) as [_ Hn].
    rewrite Hn. apply length_seq.
Qed.

End LoopOrder.

(** Two training sentences: two steps, two evaluations. *)
Lemma train_runs_pipeline_in_order_witness :
  exists tr best,
    run_trace (train toy_env tt (toy_loader (TrainDataset ["s1"; "s2"] tt 16))
                 (toy_loader (TestDataset toy_rows tt 16)) tt "cpu" "./model_save"
                 toy_start)
    = Call c_model_train Done :: tr /\
    loop_events toy_env tt (toy_loader (TestDataset toy_rows tt 16)) "cpu"
      (seq 0 (dataloader_len toy_env (toy_loader (TrainDataset ["s1"; "s2"] tt 16))))
      1 (Finite 0) tr best /\
    List.length (observed_corrcoefs tr)
    = dataloader_len toy_env (toy_loader (TrainDataset ["s1"; "s2"] tt 16)).
Proof.
  apply (train_runs_pipeline_in_order toy_env tt
           (toy_loader (TrainDataset ["s1"; "s2"] tt 16))
           (toy_loader (TestDataset toy_rows tt 16)) tt "cpu" "./model_save" toy_start).
  vm_compute. reflexivity.
Defined.

(** *** The best coefficient *)

Lemma py_lt_irrefl a : py_lt a a = false.
Proof.
  destruct a as [q| | |]; simpl; try reflexivity.
  rewrite (proj1 (Qeq_alt q q) (Qeq_refl q)). reflexivity.
Qed.

Lemma py_lt_trans a b c : py_lt a b = true -> py_lt b c = true -> py_lt a c = true.
Proof.
  destruct a as [x| | |], b as [y| | |], c as [z| | |]; simpl;
    try discriminate; try reflexivity.
  destruct (Qcompare x y) eqn:Hxy; try discriminate.
  destruct (Qcompare y z) eqn:Hyz; try discriminate.
  intros _ _. rewrite <- Qlt_alt in Hxy, Hyz.
  rewrite (proj1 (Qlt_alt x z) (Qlt_trans _ _ _ Hxy Hyz)). reflexivity.
Qed.

Lemma py_le_lt_trans a b c : py_le a b = true -> py_lt b c = true -> py_le a c = true.
Proof.
  destruct a as [x| | |], b as [y| | |], c as [z| | |]; simpl;
    try discriminate; try reflexivity.
  destruct (Qcompare x y) eqn:Hxy; try discriminate;
    destruct (Qcompare y z) eqn:Hyz; try discriminate; intros _ _.
  - rewrite <- Qeq_alt in Hxy. rewrite <- Qlt_alt in Hyz.
    assert (H : (x < z)%Q) by (rewrite Hxy; assumption).
    rewrite (proj1 (Qlt_alt x z) H). reflexivity.
  - rewrite <- Qlt_alt in Hxy, Hyz.
    rewrite (proj1 (Qlt_alt x z) (Qlt_trans _ _ _ Hxy Hyz)). reflexivity.
Qed.

(** A float that is below or equal to something is a number, hence
    equal to itself. *)
Lemma py_le_refl_of a b : py_le a b = true -> py_le b b = true.
Proof.
  destruct b as [y| | |]; simpl.
  - intros _. rewrite (proj1 (Qeq_alt y y) (Qeq_refl y)). reflexivity.
  - reflexivity.
  - reflexivity.
  - destruct a; discriminate.
Qed.

Lemma py_le_new_best a b c : py_le a b = true -> py_le a (new_best b c) = true.
Proof.
  intros H. unfold new_best. destruct (py_lt b c) eqn:Hlt; [|assumption].
  eapply py_le_lt_trans; eassumption.
Qed.

Lemma fold_new_best_le seen : forall a b,
  py_le a b = true -> py_le a (fold_left new_best seen b) = true.
Proof.
  induction seen as [|c seen IH]; intros a b H; [assumption|].
  simpl. apply IH. apply py_le_new_best. assumption.
Qed.

Lemma fold_new_best_In seen : forall b,
  In (fold_left new_best seen b) (b :: seen).
Proof.
  induction seen as [|c seen IH]; intros b; [left; reflexivity|].
  cbn [fold_left]. destruct (IH (new_best b c)) as [H|H].
  - unfold new_best in H at 1. destruct (py_lt b c).
    + right. left. assumption.
    + left. assumption.
  - right. right. assumption.
Qed.

Lemma fold_new_best_keeps seen : forall b c,
  py_lt b c = false -> py_lt (fold_left new_best seen b) c = false.
Proof.
  induction seen as [|x seen IH]; intros b c H; [assumption|].
  cbn [fold_left]. apply IH. unfold new_best.
  destruct (py_lt b x) eqn:Hbx; [|assumption].
  destruct (py_lt x c) eqn:Hxc; [|reflexivity].
  rewrite (py_lt_trans _ _ _ Hbx Hxc) in H. discriminate.
Qed.

Lemma fold_new_best_above seen : forall b,
  forallb (fun c => negb (py_lt (fold_left new_best seen b) c)) seen = true.
Proof.
  induction seen as [|x seen IH]; intros b; [reflexivity|].
  cbn [fold_left forallb]. rewrite IH, andb_true_r.
  rewrite fold_new_best_keeps; [reflexivity|].
  unfold new_best. destruct (py_lt b x) eqn:Hbx; [apply py_lt_irrefl|assumption].
Qed.

Lemma fold_new_best_running_max seen :
  is_running_max (fold_left new_best seen (Finite 0)) seen.
Proof.
  split; [apply fold_new_best_In|]. split.
  - apply fold_new_best_le. reflexivity.
  - apply fold_new_best_above.
Qed.

Section Best.

Variable env : Env.

Lemma train_loop_app model train_dl dev_dl optimizer device ks1 ks2 :
  forall batch_idx best w,
    train_loop env model train_dl dev_dl optimizer device (ks1 ++ ks2) batch_idx best w
    = bind (train_loop env model train_dl dev_dl optimizer device ks1 batch_idx best)
        (fun best1 =>
           train_loop env model train_dl dev_dl optimizer device ks2
             (batch_idx + Z.of_nat (List.length ks1)) best1) w.
Proof.
  induction ks1 as [|k ks1 IH]; intros batch_idx best w.
  - cbn [app train_loop List.length]. rewrite bind_ret_l.
    replace (batch_idx + Z.of_nat 0) with batch_idx by lia. reflexivity.
  - cbn [app train_loop]. rewrite !bind_assoc. apply bind_ext. intros source w1.
    rewrite !bind_assoc. apply bind_ext. intros u w2.
    rewrite !bind_assoc. apply bind_ext. intros best1 w3.
    rewrite IH. apply bind_ext. intros best2 w4.
    replace (batch_idx + 1 + Z.of_nat (List.length ks1))
      with (batch_idx + Z.of_nat (List.length (k :: ks1)))
      by (cbn [List.length]; lia).
    reflexivity.
Qed.

(** C2.  At any point of the loop of [train] (after the batches [ks1],
    with [ks2] still to come), [best] is what the update
    [if best < corrcoef: best = corrcoef] makes of 0 and the coefficients
    [evaluation] has returned so far; it is the largest of them and of 0;
    and it is no larger than [best] at the end of the run. *)
Theorem best_is_running_maximum
    model train_dl dev_dl optimizer device ks1 ks2 w best2 :
  run_result (train_loop env model train_dl dev_dl optimizer device (ks1 ++ ks2)
                1 (Finite 0) w) = Ok best2 ->
  exists best1,
    run_result (train_loop env model train_dl dev_dl optimizer device ks1
                  1 (Finite 0) w) = Ok best1 /\
    best1 = fold_left new_best
              (observed_corrcoefs
                 (run_trace (train_loop env model train_dl dev_dl optimizer device ks1
                               1 (Finite 0) w)))
              (Finite 0) /\
    is_running_max best1
      (observed_corrcoefs
         (run_trace (train_loop env model train_dl dev_dl optimizer device ks1
                       1 (Finite 0) w))) /\
    py_le best1 best2 = true.
Proof.
  rewrite train_loop_app. intros H.
  destruct (bind_Ok_inv _ _ _ _ H) as (best1 & H1 & H2 & _ & _).
  exists best1. split; [assumption|].
  destruct (loop_events_observed _ _ _ _ _ _ _ _ _ (train_loop_Ok _ _ _ _ _ _ _ _ _ _ _ H1))
    as [E1 _].
  destruct (loop_events_observed _ _ _ _ _ _ _ _ _ (train_loop_Ok _ _ _ _ _ _ _ _ _ _ _ H2))
    as [E2 _].
  split; [assumption|]. split.
  - rewrite E1 at 1. apply fold_new_best_running_max.
  - rewrite E2. apply fold_new_best_le.
    pose proof (fold_new_best_running_max
                  (observed_corrcoefs
                     (run_trace (train_loop env model train_dl dev_dl optimizer device
                                   ks1 1 (Finite 0) w)))) as (_ & Hle & _).
    rewrite <- E1 in Hle. eapply py_le_refl_of. eassumption.
Qed.

End Best.

(** Two batches, the first alone and then both: 0.1 after the first,
    0.2 after the second. *)
Lemma best_is_running_maximum_witness :
  exists best1,
    run_result (train_loop toy_env tt (toy_loader (TrainDataset ["s1"; "s2"] tt 16))
                  (toy_loader (TestDataset toy_rows tt 16)) tt "cpu" [0%nat]
                  1 (Finite 0) toy_start) = Ok best1 /\
    best1 = fold_left new_best
              (observed_corrcoefs
                 (run_trace (train_loop toy_env tt
                               (toy_loader (TrainDataset ["s1"; "s2"] tt 16))
                               (toy_loader (TestDataset toy_rows tt 16)) tt "cpu" [0%nat]
                               1 (Finite 0) toy_start)))
              (Finite 0) /\
    is_running_max best1
      (observed_corrcoefs
         (run_trace (train_loop toy_env tt
                       (toy_loader (TrainDataset ["s1"; "s2"] tt 16))
                       (toy_loader (TestDataset toy_rows tt 16)) tt "cpu" [0%nat]
                       1 (Finite 0) toy_start))) /\
    py_le best1 (Finite (2 # 10)) = true.
Proof.
  apply (best_is_running_maximum toy_env tt
           (toy_loader (TrainDataset ["s1"; "s2"] tt 16))
           (toy_loader (TestDataset toy_rows tt 16)) tt "cpu" [0%nat] [1%nat]
           toy_start (Finite (2 # 10))).
  vm_compute. reflexivity.
Defined.

(** *** [evaluation] computes one correlation over all batches *)

Section Evaluation.

Variable env : Env.

Lemma with_no_grad_ext {A} (b1 b2 : prog (World env) A) w :
  (forall w', b1 w' = b2 w') -> with_no_grad env b1 w = with_no_grad env b2 w.
Proof. intros H. unfold with_no_grad. rewrite H. reflexivity. Qed.

Lemma bind_with_no_grad_map {A B C} (m : prog (World env) A) (f : A -> B)
    (k : B -> prog (World env) C) w :
  bind (with_no_grad env (bind m (fun x => ret (f x)))) k w
  = bind (with_no_grad env m) (fun x => k (f x)) w.
Proof.
  unfold bind, with_no_grad, ret.
  destruct (m (no_grad_enter env w)) as [[[a|e] w1] t1]; [|reflexivity].
  rewrite app_nil_r. reflexivity.
Qed.

(** The loop with its two running arrays adds, to what the arrays held,
    the similarities and the labels of the batches in order. *)
Lemma evaluation_loop_collects model dataloader device ks :
  forall sim_tensor label_array w,
    evaluation_loop env model dataloader device ks sim_tensor label_array w
    = bind (all_batch_similarities env model dataloader device ks)
        (fun per_batch =>
           ret (sim_tensor ++ List.concat (map fst per_batch),
                label_array ++ List.concat (map snd per_batch))) w.
Proof.
  induction ks as [|k ks IH]; intros sim_tensor label_array w.
  - cbn [evaluation_loop all_batch_similarities]. rewrite bind_ret_l.
    cbn [map List.concat]. rewrite !app_nil_r. reflexivity.
  - cbn [evaluation_loop all_batch_similarities].
    unfold batch_similarities, embed.
    rewrite ?bind_assoc. apply bind_ext. intros b w1.
    rewrite ?bind_assoc. apply bind_ext. intros x w2.
    cbv zeta.
    rewrite ?bind_assoc. apply bind_ext. intros sid w3.
    rewrite ?bind_assoc. apply bind_ext. intros sam w4.
    rewrite ?bind_assoc. apply bind_ext. intros stt w5.
    rewrite ?bind_assoc. apply bind_ext. intros source_pred w6.
    rewrite ?bind_assoc. apply bind_ext. intros tid w7.
    rewrite ?bind_assoc. apply bind_ext. intros tam w8.
    rewrite ?bind_assoc. apply bind_ext. intros ttt w9.
    rewrite ?bind_assoc. apply bind_ext. intros target_pred w10.
    rewrite ?bind_assoc. apply bind_ext. intros sim w11.
    rewrite bind_ret_l, bind_assoc, IH. apply bind_ext. intros rest w12.
    rewrite bind_ret_l. cbn [map List.concat fst snd].
    rewrite !app_assoc. reflexivity.
Qed.

(** [evaluation] and the program worded after the specification agree
    on every run: result, world and trace. *)
Lemma evaluation_refines_spec model dataloader device w :
  evaluation env model dataloader device w
  = evaluation_spec env model dataloader device w.
Proof.
  unfold evaluation, evaluation_spec.
  apply bind_ext. intros u w1.
  pose (arrays := fun per : list (list pyfloat * list Z) =>
                    (@nil pyfloat ++ List.concat (map fst per),
                     @nil Z ++ List.concat (map snd per))).
  rewrite (bind_ext _ _
             (fun per => call_spearmanr env (snd (arrays per)) (fst (arrays per))))
    by reflexivity.
  rewrite <- (bind_with_no_grad_map
                (all_batch_similarities env model dataloader device
                   (seq 0 (dataloader_len env dataloader)))
                arrays
                (fun acc => call_spearmanr env (snd acc) (fst acc))).
  unfold bind at 1 3.
  rewrite (with_no_grad_ext _ _ _
             (evaluation_loop_collects model dataloader device
                (seq 0 (dataloader_len env dataloader)) [] [])).
  reflexivity.
Qed.

Lemma all_batch_similarities_length model dataloader device ks :
  forall w per_batch,
    run_result (all_batch_similarities env model dataloader device ks w) = Ok per_batch ->
    List.length per_batch = List.length ks.
Proof.
  induction ks as [|k ks IH]; intros w per_batch H.
  - cbv [all_batch_similarities ret run_result fst] in H. inversion H. reflexivity.
  - cbn [all_batch_similarities] in H.
    destruct (bind_Ok_inv _ _ _ _ H) as (b & _ & H1 & _ & _). clear H.
    destruct (bind_Ok_inv _ _ _ _ H1) as (x & _ & H2 & _ & _). clear H1.
    destruct (bind_Ok_inv _ _ _ _ H2) as (rest & Hr & H3 & _ & _). clear H2.
    cbv [ret run_result fst] in H3. inversion H3.
    cbn [List.length]. rewrite (IH _ _ Hr). reflexivity.
Qed.

(** C4.  [evaluation] is the program the specification describes: per
    batch the cosine similarities of the source and target embeddings and
    the labels, and at the end a single [spearmanr] between all the labels
    and all the similarities, batches concatenated in order.  When it
    returns, [spearmanr] was called once, and what is returned is its
    answer on the labels and similarities of all the batches of the
    DataLoader. *)
Theorem evaluation_is_one_spearman_over_all_batches model dataloader device w :
  evaluation env model dataloader device w
  = evaluation_spec env model dataloader device w /\
  forall c,
    run_result (evaluation env model dataloader device w) = Ok c ->
    observed_corrcoefs (run_trace (evaluation env model dataloader device w)) = [c] /\
    exists per_batch,
      List.length per_batch = dataloader_len env dataloader /\
      spearmanr env (List.concat (map snd per_batch)) (List.concat (map fst per_batch))
      = Returns c.
Proof.
  split; [apply evaluation_refines_spec|].
  intros c H. split; [apply evaluation_Ok_observed; exact H|].
  rewrite evaluation_refines_spec in H. unfold evaluation_spec in H.
  destruct (bind_Ok_inv _ _ _ _ H) as (u & _ & H1 & _ & _). clear H.
  destruct (bind_Ok_inv _ _ _ _ H1) as (per_batch & Hp & H2 & _ & _). clear H1.
  exists per_batch. split.
  - unfold with_no_grad in Hp.
    match type of Hp with context [all_batch_similarities _ _ _ _ ?ks ?w0] =>
      pose proof (all_batch_similarities_length model dataloader device ks w0 per_batch)
        as Hlen;
      destruct (all_batch_similarities env model dataloader device ks w0)
        as [[r w2] t2]
    end.
    rewrite Hlen by exact Hp. apply length_seq.
  - unfold call_spearmanr in H2.
    destruct (spearmanr env _ _) as [c'|n]; [|discriminate H2].
    cbv [run_result fst] in H2. inversion H2. reflexivity.
Qed.

End Evaluation.

(** *** The assertion on the pooling strategy *)

Section Assertion.

Variable env : Env.

Lemma bind_Raise_inv {A B} (m : prog (World env) A) (k : A -> prog (World env) B) w e :
  run_result (bind m k w) = Raise e ->
  run_result (m w) = Raise e \/
  exists a, run_result (m w) = Ok a /\ run_result (k a (run_world (m w))) = Raise e.
Proof.
  destruct (run_result (m w)) as [a|e'] eqn:Hm.
  - rewrite (bind_Ok _ _ _ _ Hm). intros H. right. exists a. auto.
  - rewrite (bind_Raise _ _ _ _ Hm). intros H. left.
    cbv [run_result fst] in H. inversion H. reflexivity.
Qed.

Lemma bind_select_device {B} (k : string -> prog (World env) B) w :
  bind (select_device env) k w
  = k (if cuda_is_available env w then "cuda:0" else "cpu") w.
Proof.
  unfold bind, select_device.
  destruct (k (if cuda_is_available env w then "cuda:0" else "cpu") w) as [[r w2] t2].
  reflexivity.
Qed.

(** [main] is its lines 78 to 100 followed by its lines 102 to 107. *)
Lemma main_split args w :
  main env args w
  = bind (main_until_assert env args)
      (main_from_assert env
         (set_device args (if cuda_is_available env w then "cuda:0" else "cpu"))) w.
Proof.
  unfold main, main_until_assert.
  rewrite bind_assoc, !bind_select_device. cbv zeta.
  rewrite ?bind_assoc. apply bind_ext. intros test_data_source w1.
  rewrite ?bind_assoc. apply bind_ext. intros tokenizer w2.
  rewrite ?bind_assoc. apply bind_ext. intros train_dataset w3.
  rewrite ?bind_assoc. apply bind_ext. intros train_dataloader w4.
  rewrite ?bind_assoc. apply bind_ext. intros test_dataloader w5.
  rewrite bind_ret_l. reflexivity.
Qed.

Lemma tame_after_assert args dls :
  tame train_event_ok own_exn
    (model0 <- invoke (c_SimcseModel (pretrain_model_path args) (pooler args) (dropout args))
                 (SimcseModel_init env (pretrain_model_path args) (pooler args)
                    (dropout args)) ;;
     model <- invoke (c_model_to (device args)) (model_to env model0 (device args)) ;;
     optimizer <- invoke (c_AdamW (lr args)) (AdamW_init env model (lr args)) ;;
     train env model (fst dls) (snd dls) optimizer (device args) (save_path args)).
Proof.
  apply tame_bind; [apply tame_invoke; intros []; reflexivity|intros model0].
  apply tame_bind; [apply tame_invoke; intros []; reflexivity|intros model].
  apply tame_bind; [apply tame_invoke; intros []; reflexivity|intros optimizer].
  apply tame_train.
Qed.

Lemma main_asserts_iff args w :
  run_result (main env args w) = Raise AssertionError <->
  str_in (pooler args) pooler_choices = false /\
  exists dls, run_result (main_until_assert env args w) = Ok dls.
Proof.
  rewrite main_split. split.
  - intros H. apply bind_Raise_inv in H. destruct H as [H|(dls & Hp & H)].
    + destruct (tame_main_until_assert env args w) as (_ & _ & HE).
      rewrite H in HE. discriminate.
    + unfold main_from_assert in H. cbn [pooler set_device] in H.
      destruct (str_in (pooler args) pooler_choices) eqn:Hin.
      * cbn [py_assert] in H. rewrite bind_ret_l in H.
        match type of H with run_result (?m ?w0) = _ =>
          destruct (tame_after_assert
                      (set_device args (if cuda_is_available env w
                                        then "cuda:0" else "cpu")) dls w0)
            as (_ & _ & HE)
        end.
        assert (Hc : raises_within own_exn (@Raise unit AssertionError) = true)
          by (rewrite <- H; exact HE).
        discriminate Hc.
      * split; [reflexivity|]. exists dls. assumption.
  - intros (Hin & dls & Hp). rewrite (bind_Ok _ _ _ _ Hp).
    unfold main_from_assert. cbn [pooler set_device]. rewrite Hin. reflexivity.
Qed.

Lemma parse_option_pooler a opt a' :
  str_in (pooler a) pooler_choices = true ->
  parse_option env a opt = Ok a' ->
  str_in (pooler a') pooler_choices = true.
Proof.
  intros Ha. unfold parse_option.
  repeat match goal with
         | |- (if ?b then _ else _) = _ -> _ => destruct b eqn:?
         | |- match ?o with Some _ => _ | None => _ end = _ -> _ => destruct o
         end;
    intros H; inversion H; subst; cbn [pooler set_device set_save_path
      set_un_supervise set_lr set_dropout set_batch_size set_max_length
      set_data_path set_pretrain_model_path set_pooler]; assumption.
Qed.

Lemma parse_option_Raise a opt e :
  parse_option env a opt = Raise e -> e = SystemExit 2.
Proof.
  unfold parse_option.
  repeat match goal with
         | |- (if ?b then _ else _) = _ -> _ => destruct b
         | |- match ?o with Some _ => _ | None => _ end = _ -> _ => destruct o
         end;
    intros H; inversion H; reflexivity.
Qed.

Lemma parse_options_pooler cli : forall a a',
  str_in (pooler a) pooler_choices = true ->
  parse_options env a cli = Ok a' ->
  str_in (pooler a') pooler_choices = true.
Proof.
  induction cli as [|opt cli IH]; intros a a' Ha H.
  - inversion H. subst. assumption.
  - cbn [parse_options] in H.
    destruct (parse_option env a opt) as [a1|e] eqn:H1; [|discriminate].
    apply (IH a1 a'); [|assumption]. eapply parse_option_pooler; eassumption.
Qed.

Lemma parse_options_Raise cli : forall a e,
  parse_options env a cli = Raise e -> e = SystemExit 2.
Proof.
  induction cli as [|opt cli IH]; intros a e H; [discriminate|].
  cbn [parse_options] in H.
  destruct (parse_option env a opt) as [a1|e1] eqn:H1.
  - eapply IH. eassumption.
  - inversion H. subst. eapply parse_option_Raise. eassumption.
Qed.

(** C5, as the code has it.  [main] ends in the assertion's error exactly
    when the pooling strategy is outside the four choices and everything
    before the assertion (the device, the data files, the tokenizer, the
    datasets and the two DataLoaders) went through; with a strategy among
    the four the assertion does not fire; and a run started from the
    command line never ends in it, argparse having checked the same four
    choices. *)
Theorem assertion_fires_iff_bad_pooler_after_setup :
  (forall args w,
      run_result (main env args w) = Raise AssertionError <->
      str_in (pooler args) pooler_choices = false /\
      exists dls, run_result (main_until_assert env args w) = Ok dls) /\
  (forall args w,
      str_in (pooler args) pooler_choices = true ->
      run_result (main env args w) <> Raise AssertionError) /\
  (forall cli w, run_result (__main__ env cli w) <> Raise AssertionError).
Proof.
  split; [exact main_asserts_iff|]. split.
  - intros args w Hin H. apply main_asserts_iff in H. destruct H as [H _].
    rewrite Hin in H. discriminate.
  - intros cli w H. unfold __main__ in H.
    apply bind_Raise_inv in H. destruct H as [H|(args & Hp & H)].
    + destruct (parse_args env cli) as [a|e] eqn:Hparse; [discriminate H|].
      apply parse_options_Raise in Hparse. subst e. discriminate H.
    + destruct (parse_args env cli) as [a|e] eqn:Hparse; [|discriminate Hp].
      cbv [lift ret run_result fst] in Hp. inversion Hp. subst a.
      apply bind_Raise_inv in H. destruct H as [H|(u & _ & H)].
      { unfold invoke in H. destruct (logger_add env _ _) as [[?|?] ?]; discriminate H. }
      apply bind_Raise_inv in H. destruct H as [H|(u' & _ & H)]; [discriminate H|].
      apply main_asserts_iff in H. destruct H as [H _].
      rewrite (parse_options_pooler cli default_args args) in H;
        [discriminate|reflexivity|exact Hparse].
Qed.

End Assertion.

(** With the data files missing and the strategy ["mean"], [main] ends in
    the loader's exception: the assertion is never reached. *)
Lemma assertion_not_reached_without_data :
  ~ (run_result (main toy_env (set_pooler default_args "mean") toy_no_files)
     = Raise AssertionError <->
     str_in (pooler (set_pooler default_args "mean")) pooler_choices = false).
Proof.
  intros [_ H]. specialize (H eq_refl). vm_compute in H. discriminate H.
Qed.

(** *** The [--device] flag *)

Section DeviceFlag.

Variable env : Env.

(** [main] replaces [args.device] before reading anything of [args]. *)
Lemma main_ignores_device args d w :
  main env (set_device args d) w = main env args w.
Proof. reflexivity. Qed.

Lemma args_agree_eq a1 a2 : args_agree a1 a2 -> a2 = set_device a1 (device a2).
Proof.
  destruct a1, a2. unfold args_agree, set_device. cbn.
  intros H. inversion H. reflexivity.
Qed.

Lemma parse_option_agree a1 a2 opt :
  args_agree a1 a2 ->
  match parse_option env a1 opt, parse_option env a2 opt with
  | Ok b1, Ok b2 => args_agree b1 b2
  | Raise e1, Raise e2 => e1 = e2
  | _, _ => False
  end.
Proof.
  destruct a1, a2. unfold args_agree, set_device. cbn. intros H. inversion H. subst.
  unfold parse_option.
  repeat match goal with
         | |- context [if ?b then _ else _] => destruct b
         | |- context [match ?o with Some _ => _ | None => _ end] => destruct o
         end; reflexivity.
Qed.

Lemma parse_options_agree cli : forall a1 a2,
  args_agree a1 a2 ->
  match parse_options env a1 cli, parse_options env a2 cli with
  | Ok b1, Ok b2 => args_agree b1 b2
  | Raise e1, Raise e2 => e1 = e2
  | _, _ => False
  end.
Proof.
  induction cli as [|opt cli IH]; intros a1 a2 H; [exact H|].
  cbn [parse_options]. pose proof (parse_option_agree a1 a2 opt H) as Ho.
  destruct (parse_option env a1 opt) as [b1|e1], (parse_option env a2 opt) as [b2|e2];
    try contradiction; [apply IH|]; assumption.
Qed.

Lemma parse_options_app cli1 cli2 : forall a,
  parse_options env a (cli1 ++ cli2)
  = match parse_options env a cli1 with
    | Ok a' => parse_options env a' cli2
    | Raise e => Raise e
    end.
Proof.
  induction cli1 as [|opt cli1 IH]; intros a; [reflexivity|].
  cbn [app parse_options]. destruct (parse_option env a opt); [apply IH|reflexivity].
Qed.

Lemma parse_args_device cli1 cli2 d1 d2 :
  match parse_args env (cli1 ++ ("--device", d1) :: cli2),
        parse_args env (cli1 ++ ("--device", d2) :: cli2) with
  | Ok b1, Ok b2 => args_agree b1 b2
  | Raise e1, Raise e2 => e1 = e2
  | _, _ => False
  end.
Proof.
  unfold parse_args. rewrite !parse_options_app.
  destruct (parse_options env default_args cli1) as [a|e]; [|reflexivity].
  cbn [parse_options]. change (parse_option env a ("--device", d1)) with (Ok (set_device a d1)).
  change (parse_option env a ("--device", d2)) with (Ok (set_device a d2)).
  apply parse_options_agree. reflexivity.
Qed.

Lemma entry_point_agree a1 a2 w :
  args_agree a1 a2 ->
  same_but_args_log env
    ((_ <- invoke (c_logger_add "../log/train.log") (logger_add env "../log/train.log") ;;
      _ <- emit (LogInfo (MsgArgs a1)) ;;
      main env a1) w)
    ((_ <- invoke (c_logger_add "../log/train.log") (logger_add env "../log/train.log") ;;
      _ <- emit (LogInfo (MsgArgs a2)) ;;
      main env a2) w).
Proof.
  intros H. rewrite (args_agree_eq _ _ H).
  unfold bind, invoke, emit.
  destruct (logger_add env "../log/train.log" w) as [[u|n] w1].
  - rewrite main_ignores_device.
    destruct (main env a1 w1) as [[r w2] t2]. repeat split.
  - repeat split.
Qed.

(** C9, as the code has it.  [main] does not depend on [args.device],
    which it overwrites from [torch.cuda.is_available()]; and two runs
    from command lines that differ in the value of [--device] only end
    alike, in the same world, after the same events, but for the record
    of the parsed arguments that the entry point logs before [main]. *)
Theorem device_flag_reaches_only_the_args_log :
  (forall args d w, main env (set_device args d) w = main env args w) /\
  (forall cli1 cli2 d1 d2 w,
      same_but_args_log env
        (__main__ env (cli1 ++ ("--device", d1) :: cli2) w)
        (__main__ env (cli1 ++ ("--device", d2) :: cli2) w)).
Proof.
  split; [exact main_ignores_device|].
  intros cli1 cli2 d1 d2 w. unfold __main__.
  pose proof (parse_args_device cli1 cli2 d1 d2) as H.
  destruct (parse_args env (cli1 ++ ("--device", d1) :: cli2)) as [a1|e1],
           (parse_args env (cli1 ++ ("--device", d2) :: cli2)) as [a2|e2];
    try contradiction.
  - cbn [lift]. rewrite !bind_ret_l. apply entry_point_agree. assumption.
  - subst e2. repeat split.
Qed.

End DeviceFlag.

(** Two runs that differ in [--device] only: the records logged before
    [main] differ. *)
Lemma device_flag_changes_the_args_log :
  run_trace (__main__ toy_env [("--device", "cpu")] toy_no_files)
  <> run_trace (__main__ toy_env [("--device", "gpu")] toy_no_files).
Proof. vm_compute. intros H. discriminate H. Qed.

(** *** The [--un_supervise] flag *)

Section UnsuperviseFlag.

Variable env : Env.



(** The dataset behind the training DataLoader follows the flag; the one
    behind the evaluation DataLoader is always a [TestDataset]. *)
Lemma main_until_assert_datasets args w dls :
  run_result (main_until_assert env args w) = Ok dls ->
  is_TrainDataset (dl_dataset (fst dls)) = un_supervise args /\
  is_TrainDataset (dl_dataset (snd dls)) = false.
Proof.
  unfold main_until_assert. rewrite bind_select_device. cbv zeta.
  cbn [un_supervise set_device]. intros H.
  destruct (bind_Ok_inv _ _ _ _ H) as (test_data_source & _ & H1 & _ & _). clear H.
  destruct (bind_Ok_inv _ _ _ _ H1) as (tokenizer & _ & H2 & _ & _). clear H1.
  destruct (bind_Ok_inv _ _ _ _ H2) as (train_dataset & Hd & H3 & _ & _). clear H2.
  unfold new_DataLoader in H3. rewrite bind_assoc in H3.
  destruct (bind_Ok_inv _ _ _ _ H3) as (u1 & _ & H4 & _ & _). clear H3.
  rewrite bind_ret_l, bind_assoc in H4.
  destruct (bind_Ok_inv _ _ _ _ H4) as (u2 & _ & H5 & _ & _). clear H4.
  rewrite !bind_ret_l in H5. cbv [ret run_result fst] in H5. inversion H5. subst dls.
  cbn [fst snd dl_dataset is_TrainDataset]. split; [|reflexivity].
  destruct (un_supervise args).
  - destruct (bind_Ok_inv _ _ _ _ Hd) as (src & _ & Hd1 & _ & _).
    destruct (bind_Ok_inv _ _ _ _ Hd1) as (sents & _ & Hd2 & _ & _).
    cbv [ret run_result fst] in Hd2. inversion Hd2. reflexivity.
  - destruct (bind_Ok_inv _ _ _ _ Hd) as (src & _ & Hd1 & _ & _).
    cbv [ret run_result fst] in Hd1. inversion Hd1. reflexivity.
Qed.


End UnsuperviseFlag.


(** *** Supervised mode *)

Section Supervised.

Variable env : Env.

Lemma not_training_not_batch_of_setup (tr : trace) :
  forallb setup_event tr = true ->
  forallb (fun ev => negb (is_training_call ev)) tr = true /\
  forall k, ~ In (Call (c_next_batch k) Done) tr.
Proof.
  intros H. split.
  - revert H. apply forallb_impl. intros [[] []| |]; simpl; auto; discriminate.
  - intros k Hin. rewrite forallb_forall in H. apply H in Hin. discriminate.
Qed.

Lemma run_trace_mk {A} (r : outcome A) (w : World env) (t : trace) :
  run_trace (r, w, t) = t.
Proof. reflexivity. Qed.

Lemma run_result_mk {A} (r : outcome A) (w : World env) (t : trace) :
  run_result (r, w, t) = r.
Proof. reflexivity. Qed.

Lemma stops_bind_setup {A B} (m : prog (World env) A) (k : A -> prog (World env) B) w :
  forallb setup_event (run_trace (m w)) = true ->
  (forall a, run_result (m w) = Ok a ->
             stops_at_first_batch (k a (run_world (m w)))) ->
  stops_at_first_batch (bind m k w).
Proof.
  intros HP Hk.
  destruct (not_training_not_batch_of_setup _ HP) as [Hn Hb].
  destruct (run_result (m w)) as [a|e] eqn:Hr.
  - rewrite (bind_Ok _ _ _ _ Hr). destruct (Hk a eq_refl) as [Kn Kb].
    unfold stops_at_first_batch. rewrite run_trace_mk, run_result_mk. split.
    + rewrite forallb_app, Hn, Kn. reflexivity.
    + intros j Hin. apply in_app_or in Hin. destruct Hin as [Hin|Hin].
      * exfalso. exact (Hb j Hin).
      * exact (Kb j Hin).
  - rewrite (bind_Raise _ _ _ _ Hr).
    unfold stops_at_first_batch. rewrite run_trace_mk, run_result_mk. split.
    + exact Hn.
    + intros j Hin. exfalso. exact (Hb j Hin).
Qed.

Lemma setup_invoke {A} c (f : World env -> reply A * World env) w :
  (forall r, setup_event (Call c r) = true) ->
  forallb setup_event (run_trace (invoke c f w)) = true.
Proof.
  intros H. exact (proj1 (tame_invoke setup_event own_exn c f H w)).
Qed.

(** Over a [TestDataset] the loop of [train] stops at the first batch:
    the batch is a list, and a list has no [get]. *)
Lemma train_loop_TestDataset model train_dl dev_dl optimizer device ks batch_idx best w :
  is_TrainDataset (dl_dataset train_dl) = false ->
  stops_at_first_batch
    ((_ <- train_loop env model train_dl dev_dl optimizer device ks batch_idx best ;;
      ret tt) w).
Proof.
  intros Hds. destruct ks as [|k ks].
  - split; [reflexivity|]. intros j [].
  - cbn [train_loop]. unfold next_batch.
    destruct (dl_dataset train_dl) as [sents tok ml|rows tok ml]; [discriminate|].
    unfold bind, invoke.
    destruct (fetch_test env rows tok ml (dl_batch_size train_dl) k w) as [[x|n] w1].
    + split; [reflexivity|]. intros j Hin. reflexivity.
    + split; [reflexivity|]. intros j [Hin|[]]. discriminate Hin.
Qed.

(** C1, on the code.  In supervised mode no run of [main] reaches a
    forward pass, a loss, a backward pass or an optimizer step; and a run
    in which the DataLoader delivers a training batch ends in
    [AttributeError], raised by [source.get] on the three-element list
    that a [TestDataset] batch is. *)
Theorem supervised_training_stops_at_first_batch args w :
  un_supervise args = false ->
  stops_at_first_batch (main env args w).
Proof.
  intros Hsup. rewrite main_split.
  apply stops_bind_setup; [apply (tame_main_until_assert env args w)|].
  intros dls Hr.
  destruct (main_until_assert_datasets env args w dls Hr) as [Hds _].
  rewrite Hsup in Hds.
  unfold main_from_assert, train.
  apply stops_bind_setup.
  { destruct (str_in _ _); reflexivity. }
  intros _ _.
  apply stops_bind_setup; [apply setup_invoke; intros []; reflexivity|].
  intros model0 _.
  apply stops_bind_setup; [apply setup_invoke; intros []; reflexivity|].
  intros model _.
  apply stops_bind_setup; [apply setup_invoke; intros []; reflexivity|].
  intros optimizer _.
  apply stops_bind_setup; [apply setup_invoke; intros []; reflexivity|].
  intros _ _.
  apply train_loop_TestDataset. exact Hds.
Qed.

End Supervised.

(** The same data in unsupervised mode: [main] runs to its end. *)
Example unsupervised_run_completes :
  run_result (main toy_env (set_un_supervise default_args true) toy_start) = Ok tt.
Proof. vm_compute. reflexivity. Qed.

(** The default command line (supervised mode) on two rows of training
    data: the first batch is delivered and [main] ends in
    [AttributeError]. *)
Lemma supervised_training_stops_at_first_batch_witness :
  run_result (main toy_env default_args toy_start) = Raise AttributeError.
Proof.
  apply (proj2 (supervised_training_stops_at_first_batch toy_env default_args
                  toy_start eq_refl) 0%nat).
  vm_compute. do 9 right. left. reflexivity.
Defined.

(** * Further properties of the script *)

(** ** The events of each function, exactly *)

Create HintDb tame_on.

Ltac event_ok :=
  intros r; destruct r;
  cbv [train_run_event main_event eval_event data_event];
  rewrite ?String.eqb_refl; reflexivity.

Ltac tame_walk_on :=
  repeat (first
    [ solve [auto 1 with tame_on nocore]
    | apply tame_ret
    | apply tame_raise; reflexivity
    | apply tame_emit; reflexivity
    | apply tame_invoke; event_ok
    | apply tame_invoke_pure; event_ok
    | apply tame_py_assert; reflexivity
    | apply tame_bind; [ | intros ? ]
    | match goal with
      | |- tame _ _ (match ?x with _ => _ end) => destruct x
      | |- tame _ _ (fun _ => match ?x with _ => _ end) => destruct x
      end
    | progress cbv zeta ]).

Section EventsOn.

Variable env : Env.

Lemma tame_evaluation_loop_on model dataloader device ks sim_tensor label_array :
  tame (eval_event device) own_exn
    (evaluation_loop env model dataloader device ks sim_tensor label_array).
Proof.
  revert sim_tensor label_array.
  induction ks as [|k ks IH]; intros sim_tensor label_array; simpl.
  - apply tame_ret.
  - unfold next_batch, unpack3, squeezed, tensor_squeeze, to_device.
    tame_walk_on.
Qed.
#[local] Hint Resolve tame_evaluation_loop_on : tame_on.

Lemma tame_evaluation_on model dataloader device :
  tame (eval_event device) own_exn (evaluation env model dataloader device).
Proof.
  unfold evaluation. tame_walk_on.
  - apply tame_with_no_grad. apply tame_evaluation_loop_on.
  - apply tame_call_spearmanr. event_ok.
Qed.

Lemma eval_event_train_run d ev : eval_event d ev = true -> train_run_event d ev = true.
Proof. unfold train_run_event. intros ->. reflexivity. Qed.

Lemma tame_evaluation_in_train model dataloader device :
  tame (train_run_event device) own_exn (evaluation env model dataloader device).
Proof.
  eapply tame_weaken; [| |apply tame_evaluation_on]; auto using eval_event_train_run.
Qed.
#[local] Hint Resolve tame_evaluation_in_train : tame_on.

Lemma tame_train_step_on model dev_dl optimizer device source batch_idx best :
  tame (train_run_event device) own_exn
    (train_step env model dev_dl optimizer device source batch_idx best).
Proof.
  unfold train_step, batch_get, shape0, tensor_view, to_device.
  tame_walk_on.
Qed.
#[local] Hint Resolve tame_train_step_on : tame_on.

Lemma tame_train_loop_on model train_dl dev_dl optimizer device ks batch_idx best :
  tame (train_run_event device) own_exn
    (train_loop env model train_dl dev_dl optimizer device ks batch_idx best).
Proof.
  revert batch_idx best.
  induction ks as [|k ks IH]; intros batch_idx best; simpl.
  - apply tame_ret.
  - unfold next_batch. tame_walk_on.
Qed.
#[local] Hint Resolve tame_train_loop_on : tame_on.


Lemma tame_main_until_assert_data args :
  tame data_event own_exn (main_until_assert env args).
Proof.
  unfold main_until_assert, new_DataLoader. tame_walk_on.
  - apply tame_select_device.
  - apply tame_first_fields.
Qed.



End EventsOn.

(** ** One device *)


(** ** What [evaluation] does not do *)


(** ** A pooling strategy outside the choices *)

Section BadPooler.

Variable env : Env.

(** X3.  Called with a pooling strategy outside the four choices, [main]
    does nothing but load the data files and the tokenizer and build the
    DataLoaders: no model, no optimizer, no batch, no training. *)
Theorem bad_pooler_builds_no_model args w :
  str_in (pooler args) pooler_choices = false ->
  forallb data_event (run_trace (main env args w)) = true.
Proof.
  intros Hin. rewrite main_split.
  destruct (tame_main_until_assert_data env args w) as (HP & _ & _).
  destruct (run_result (main_until_assert env args w)) as [dls|e] eqn:Hr.
  - rewrite (bind_Ok _ _ _ _ Hr). unfold main_from_assert.
    cbn [pooler set_device]. rewrite Hin.
    cbv [py_assert raise bind run_trace snd].
    fold (run_trace (main_until_assert env args w)).
    rewrite app_nil_r. exact HP.
  - rewrite (bind_Raise _ _ _ _ Hr). exact HP.
Qed.

End BadPooler.

Lemma bad_pooler_builds_no_model_witness :
  forallb data_event
    (run_trace (main toy_env (set_pooler default_args "mean") toy_start)) = true.
Proof.
  apply (bad_pooler_builds_no_model toy_env (set_pooler default_args "mean") toy_start).
  reflexivity.
Defined.

(** ** The data [main] reads *)


Section DataFiles.

Variable env : Env.










End DataFiles.


(** ** The records of a new best *)





Section HigherRecords.

Variable env : Env.





End HigherRecords.


(** ** What a run of [train] costs *)

Lemma count_events_app P (t1 t2 : trace) :
  count_events P (t1 ++ t2) = (count_events P t1 + count_events P t2)%nat.
Proof. unfold count_events. rewrite filter_app. apply length_app. Qed.

Lemma count_events_none (P Q : event -> bool) (tr : trace) :
  (forall ev, Q ev = true -> P ev = false) ->
  forallb Q tr = true -> count_events P tr = 0%nat.
Proof.
  intros HPQ. unfold count_events. induction tr as [|ev tr IH]; [reflexivity|].
  cbn [forallb filter]. intros H. apply andb_prop in H. destruct H as [H1 H2].
  rewrite (HPQ ev H1). apply IH. exact H2.
Qed.

Section Costs.

Variable env : Env.

Lemma squeezed_Ok_inv d key device w t :
  run_result (squeezed env d key device w) = Ok t ->
  exists t0,
    run_trace (squeezed env d key device w)
    = [Call (c_squeeze t0) Done; Call (c_tensor_to t device) Done].
Proof.
  unfold squeezed, tensor_squeeze. intros H.
  destruct (enc_get d key) as [t0|]; [|discriminate H].
  exists t0.
  destruct (bind_Ok_inv _ _ _ _ H) as (t1 & H1 & H2 & _ & Ht). rewrite Ht.
  destruct (invoke_pure_Ok_inv _ _ _ _ _ H1) as (_ & Hw & T1). rewrite T1, Hw in *.
  destruct (to_device_Ok_inv _ _ _ _ _ H2) as [-> T2]. rewrite T2. reflexivity.
Qed.

Lemma with_no_grad_run {A} (body : prog (World env) A) w :
  run_result (with_no_grad env body w) = run_result (body (no_grad_enter env w)) /\
  run_trace (with_no_grad env body w) = run_trace (body (no_grad_enter env w)).
Proof.
  unfold with_no_grad. destruct (body (no_grad_enter env w)) as [[r w1] t].
  split; reflexivity.
Qed.

Lemma unpack3_Ok_inv b w x :
  run_result (unpack3 env b w) = Ok x ->
  run_trace (unpack3 env b w) = [] /\ run_world (unpack3 env b w) = w.
Proof. destruct b; [discriminate|]. intros _. split; reflexivity. Qed.

Ltac squeezed_step H t :=
  let Hs := fresh "Hs" in
  let t0 := fresh "t0" in
  let Ts := fresh "Ts" in
  ok_bind H t Hs; destruct (squeezed_Ok_inv _ _ _ _ _ Hs) as (t0 & Ts);
  rewrite Ts; clear Hs Ts.

Lemma evaluation_loop_Ok_counts model dataloader device ks :
  forall sim_tensor label_array w acc,
    run_result (evaluation_loop env model dataloader device ks sim_tensor label_array w)
    = Ok acc ->
    count_events is_forward
      (run_trace (evaluation_loop env model dataloader device ks sim_tensor label_array w))
    = (2 * List.length ks)%nat /\
    count_events is_cosine_similarity
      (run_trace (evaluation_loop env model dataloader device ks sim_tensor label_array w))
    = List.length ks /\
    count_events is_next_batch
      (run_trace (evaluation_loop env model dataloader device ks sim_tensor label_array w))
    = List.length ks.
Proof.
  induction ks as [|k ks IH]; intros sim_tensor label_array w acc H.
  - repeat split.
  - cbn [evaluation_loop] in *.
    ok_bind H b H1. rewrite (next_batch_Ok_inv _ _ _ _ _ H1). clear H1.
    ok_bind H x H2. destruct (unpack3_Ok_inv _ _ _ H2) as [T2 W2].
    rewrite T2, W2 in *. clear H2 T2 W2. cbv zeta in *.
    squeezed_step H sid. squeezed_step H sam. squeezed_step H stt.
    ok_bind H sp H3. apply invoke_Ok_inv in H3. destruct H3 as [_ T3]. rewrite T3.
    squeezed_step H tid. squeezed_step H tam. squeezed_step H ttt.
    ok_bind H tp H4. apply invoke_Ok_inv in H4. destruct H4 as [_ T4]. rewrite T4.
    ok_bind H sim H5. apply invoke_Ok_inv in H5. destruct H5 as [_ T5]. rewrite T5.
    destruct (IH _ _ _ _ H) as (C1 & C2 & C3).
    rewrite !count_events_app, C1, C2, C3. unfold count_events.
    simpl. repeat split; lia.
Qed.

Lemma evaluation_Ok_counts model dataloader device w c :
  run_result (evaluation env model dataloader device w) = Ok c ->
  count_events is_forward (run_trace (evaluation env model dataloader device w))
  = (2 * dataloader_len env dataloader)%nat /\
  count_events is_cosine_similarity (run_trace (evaluation env model dataloader device w))
  = dataloader_len env dataloader /\
  count_events is_next_batch (run_trace (evaluation env model dataloader device w))
  = dataloader_len env dataloader /\
  count_events is_optimizer_step (run_trace (evaluation env model dataloader device w))
  = 0%nat /\
  count_events is_loss_record (run_trace (evaluation env model dataloader device w))
  = 0%nat.
Proof.
  intros H.
  assert (Hno : count_events is_optimizer_step
                  (run_trace (evaluation env model dataloader device w)) = 0%nat /\
                count_events is_loss_record
                  (run_trace (evaluation env model dataloader device w)) = 0%nat).
  { destruct (tame_evaluation_on env model dataloader device w) as (HP & _ & _).
    split; apply (count_events_none _ (eval_event device)); try exact HP;
      intros [[] []| |]; simpl; auto; discriminate. }
  destruct Hno as [N1 N2]. rewrite N1, N2. clear N1 N2.
  unfold evaluation in *.
  ok_bind H u H1. apply invoke_Ok_inv in H1. destruct H1 as [_ T1]. rewrite T1.
  ok_bind H acc H2.
  unfold call_spearmanr in *.
  destruct (spearmanr env (snd acc) (fst acc)) as [c'|n]; [|discriminate H].
  rewrite (proj1 (with_no_grad_run _ _)) in H2.
  rewrite (proj2 (with_no_grad_run _ _)).
  destruct (evaluation_loop_Ok_counts _ _ _ _ _ _ _ _ H2) as (C1 & C2 & C3).
  rewrite length_seq in C1, C2, C3.
  rewrite !count_events_app, C1, C2, C3. unfold count_events. simpl.
  repeat split; lia.
Qed.

Lemma step_events_counts model dev_dl device batch_idx best seg best' :
  step_events env model dev_dl device batch_idx best seg best' ->
  count_events is_optimizer_step seg = 1%nat /\
  count_events is_loss_record seg = 1%nat /\
  count_events is_forward seg = (1 + 2 * dataloader_len env dev_dl)%nat /\
  count_events is_cosine_similarity seg = dataloader_len env dev_dl /\
  count_events is_next_batch seg = dataloader_len env dev_dl.
Proof.
  intros (prep & ids & mask & types & x & w_e & c & Hp & He & Hb & Hs).
  destruct (evaluation_Ok_counts _ _ _ _ _ He) as (C1 & C2 & C3 & C4 & C5).
  assert (P0 : forall P, (forall ev, is_reshape_event ev = true -> P ev = false) ->
                         count_events P prep = 0%nat)
    by (intros P HP; exact (count_events_none P _ prep HP Hp)).
  subst seg. rewrite !count_events_app, C1, C2, C3, C4, C5.
  rewrite !P0 by (intros [[] []| |]; simpl; auto; discriminate).
  unfold count_events. destruct (py_lt best c); simpl; repeat split; lia.
Qed.

Lemma loop_events_counts model dev_dl device ks batch_idx best tr best' :
  loop_events env model dev_dl device ks batch_idx best tr best' ->
  count_events is_optimizer_step tr = List.length ks /\
  count_events is_loss_record tr = List.length ks /\
  count_events is_forward tr
  = (List.length ks * (1 + 2 * dataloader_len env dev_dl))%nat /\
  count_events is_cosine_similarity tr
  = (List.length ks * dataloader_len env dev_dl)%nat /\
  count_events is_next_batch tr
  = (List.length ks + List.length ks * dataloader_len env dev_dl)%nat.
Proof.
  induction 1 as [|k ks batch_idx best best1 best2 seg rest Hs Hl
                     (I1 & I2 & I3 & I4 & I5)].
  - repeat split.
  - destruct (step_events_counts _ _ _ _ _ _ _ Hs) as (S1 & S2 & S3 & S4 & S5).
    rewrite !count_events_app, I1, I2, I3, I4, I5, S1, S2, S3, S4, S5.
    unfold count_events. simpl. repeat split; lia.
Qed.

(** X7.  A completed run of [train] over [n] training batches, with [m]
    batches in the evaluation DataLoader, takes [n] optimizer steps and
    logs [n] loss records, and, evaluating after every step, fetches
    [n + n * m] batches, runs [n * (1 + 2 * m)] forward passes and
    computes [n * m] batches of cosine similarities. *)
Theorem train_evaluates_after_every_step_at_full_cost
    model train_dl dev_dl optimizer device save_path w :
  run_result (train env model train_dl dev_dl optimizer device save_path w) = Ok tt ->
  count_events is_optimizer_step
    (run_trace (train env model train_dl dev_dl optimizer device save_path w))
  = dataloader_len env train_dl /\
  count_events is_loss_record
    (run_trace (train env model train_dl dev_dl optimizer device save_path w))
  = dataloader_len env train_dl /\
  count_events is_forward
    (run_trace (train env model train_dl dev_dl optimizer device save_path w))
  = (dataloader_len env train_dl * (1 + 2 * dataloader_len env dev_dl))%nat /\
  count_events is_cosine_similarity
    (run_trace (train env model train_dl dev_dl optimizer device save_path w))
  = (dataloader_len env train_dl * dataloader_len env dev_dl)%nat /\
  count_events is_next_batch
    (run_trace (train env model train_dl dev_dl optimizer device save_path w))
  = (dataloader_len env train_dl
     + dataloader_len env train_dl * dataloader_len env dev_dl)%nat.
Proof.
  unfold train. intros H.
  ok_bind H u H1. apply invoke_Ok_inv in H1. destruct H1 as [_ T1]. rewrite T1.
  ok_bind H best H2. clear H.
  destruct (loop_events_counts _ _ _ _ _ _ _ _ (train_loop_Ok _ _ _ _ _ _ _ _ _ _ _ H2))
    as (I1 & I2 & I3 & I4 & I5).
  rewrite length_seq in I1, I2, I3, I4, I5.
  rewrite !count_events_app, I1, I2, I3, I4, I5.
  unfold count_events. simpl. repeat split; lia.
Qed.

End Costs.

(** Two training batches and two evaluation batches: ten forward
    passes. *)
Lemma train_evaluates_after_every_step_at_full_cost_witness :
  count_events is_forward
    (run_trace (train toy_env tt (toy_loader (TrainDataset ["s1"; "s2"] tt 16))
                  (toy_loader (TestDataset toy_rows tt 16)) tt "cpu" "./model_save"
                  toy_start))
  = 10%nat.
Proof.
  apply (train_evaluates_after_every_step_at_full_cost toy_env tt
           (toy_loader (TrainDataset ["s1"; "s2"] tt 16))
           (toy_loader (TestDataset toy_rows tt 16)) tt "cpu" "./model_save" toy_start).
  vm_compute. reflexivity.
Defined.

(** ** The reshaping of evaluation batches, and of batches of single
    sentences *)

Lemma numel_B1L (B L : Z) : numel [B; 1; L] = B * L.
Proof. unfold numel; cbn [fold_right]; ring. Qed.

Lemma offset_B1L (B L b s : Z) :
  0 <= b < B -> 0 <= s < L ->
  offset [B; 1; L] [b; 0; s] 0 = Some (b * L + s).
Proof.
  intros Hb Hs. cbn [offset].
  replace (0 <=? b) with true by (symmetry; apply Z.leb_le; lia).
  replace (b <? B) with true by (symmetry; apply Z.ltb_lt; lia).
  replace (0 <=? s) with true by (symmetry; apply Z.leb_le; lia).
  replace (s <? L) with true by (symmetry; apply Z.ltb_lt; lia).
  cbn [andb Z.leb Z.ltb Z.compare]. f_equal; try ring.
Qed.


Lemma view_rows_halved (t : tensor) (B H : Z) :
  shape t = [B; 1; 2 * H] -> contiguous t -> 0 < B -> 0 <= H ->
  view_rows t (B * 2) = Some (mkTensor [B * 2; H] (data t)) /\
  halved t (mkTensor [B * 2; H] (data t)) B H.
Proof.
  intros Hsh Hc HB HH. split.
  - unfold view_rows. rewrite Hsh, numel_B1L.
    replace (0 <? B * 2) with true by (symmetry; apply Z.ltb_lt; lia).
    replace (B * (2 * H)) with (H * (B * 2)) by ring.
    rewrite Z.mod_mul by lia. rewrite Z.div_mul by lia. reflexivity.
  - split; [reflexivity|].
    intros b h s Hb Hh Hs. unfold tensor_get. cbn [shape data].
    rewrite Hsh, offset_B1L by nia. rewrite offset_2 by lia.
    replace ((2 * b + h) * H + s) with (b * (2 * H) + (h * H + s)) by ring.
    split; [reflexivity|].
    apply nth_error_Some. unfold contiguous in Hc. rewrite Hsh, numel_B1L in Hc.
    apply Nat2Z.inj_lt. rewrite Z2Nat.id by nia. rewrite Hc. nia.
Qed.

Lemma view_rows_odd (t : tensor) (B L : Z) :
  shape t = [B; 1; L] -> 0 < B -> L mod 2 = 1 ->
  view_rows t (B * 2) = None.
Proof.
  intros Hsh HB HL. unfold view_rows. rewrite Hsh, numel_B1L.
  replace (0 <? B * 2) with true by (symmetry; apply Z.ltb_lt; lia).
  assert (E : B * L = B + (L / 2) * (B * 2)).
  { rewrite (Z.div_mod L 2) at 1 by lia. rewrite HL. ring. }
  rewrite E, Z.mod_add by lia. rewrite Z.mod_small by lia.
  replace (B =? 0) with false by (symmetry; apply Z.eqb_neq; lia). reflexivity.
Qed.

Section Reshapes.

Variable env : Env.


(** X9.  The reshaping of [train] takes [batch * 2] rows whatever the
    second dimension is.  On a batch of single sentences, shape
    [batch, 1, seq_len] with [seq_len] even, the view is accepted and has
    shape [batch * 2, seq_len / 2]: rows [2b] and [2b + 1] are the two
    halves of sentence [b], not two views of it. *)
Theorem view_splits_single_sentences_in_halves t B H w :
  shape t = [B; 1; 2 * H] -> contiguous t -> 0 < B -> 0 <= H ->
  exists t',
    run_result (tensor_view env (Some t) (B * 2) w) = Ok t' /\
    halved t t' B H.
Proof.
  intros Hsh Hc HB HH.
  destruct (view_rows_halved t B H Hsh Hc HB HH) as [Hv Hh].
  exists (mkTensor [B * 2; H] (data t)). split; [|exact Hh].
  unfold tensor_view. rewrite Hv. reflexivity.
Qed.

(** X10.  On a batch of single sentences of odd length, shape
    [batch, 1, seq_len] with [seq_len] odd, the training step ends at its
    first [view]: torch's error, and no forward pass. *)
Theorem train_step_fails_on_odd_single_sentences
    model dev_dl optimizer device d batch_idx best w B L :
  shape (input_ids d) = [B; 1; L] -> 0 < B -> L mod 2 = 1 ->
  train_step env model dev_dl optimizer device (BatchDict d) batch_idx best w
  = (Raise (FrameworkError "RuntimeError"), w,
     [Call (c_view (input_ids d) (B * 2)) (Threw "RuntimeError")]).
Proof.
  intros Hsh HB HL. unfold train_step, batch_get, shape0, tensor_view.
  change (enc_get d "input_ids") with (Some (input_ids d)).
  rewrite bind_ret_l, Hsh, !bind_ret_l.
  rewrite (view_rows_odd _ B L Hsh HB HL). reflexivity.
Qed.


End Reshapes.


Lemma view_splits_single_sentences_in_halves_witness :
  exists t',
    run_result (tensor_view toy_env
                  (Some (mkTensor [2; 1; 2 * 2] [11; 12; 13; 14; 21; 22; 23; 24]))
                  (2 * 2) toy_start) = Ok t' /\
    halved (mkTensor [2; 1; 2 * 2] [11; 12; 13; 14; 21; 22; 23; 24]) t' 2 2.
Proof.
  apply (view_splits_single_sentences_in_halves toy_env
           (mkTensor [2; 1; 2 * 2] [11; 12; 13; 14; 21; 22; 23; 24]) 2 2 toy_start);
    try reflexivity; lia.
Defined.

Lemma train_step_fails_on_odd_single_sentences_witness :
  train_step toy_env tt (toy_loader (TestDataset toy_rows tt 16)) tt "cpu"
    (BatchDict (toy_encoding (toy_single_tensor 0))) 1 (Finite 0) toy_start
  = (Raise (FrameworkError "RuntimeError"), toy_start,
     [Call (c_view (input_ids (toy_encoding (toy_single_tensor 0))) (1 * 2))
        (Threw "RuntimeError")]).
Proof.
  apply (train_step_fails_on_odd_single_sentences toy_env tt
           (toy_loader (TestDataset toy_rows tt 16)) tt "cpu"
           (toy_encoding (toy_single_tensor 0)) 1 (Finite 0) toy_start 1 3);
    try reflexivity; lia.
Defined.


(** ** The mode of the model at each forward pass *)

Lemma forward_modes_app (t1 t2 : trace) : forall b,
  forward_modes b (t1 ++ t2)
  = forward_modes b t1 ++ forward_modes (mode_after b t1) t2.
Proof.
  induction t1 as [|ev t1 IH]; intros b; [reflexivity|].
  destruct ev as [[] []| |]; cbn [app forward_modes mode_after];
    rewrite ?IH; reflexivity.
Qed.

Lemma mode_after_app (t1 t2 : trace) : forall b,
  mode_after b (t1 ++ t2) = mode_after (mode_after b t1) t2.
Proof.
  induction t1 as [|ev t1 IH]; intros b; [reflexivity|].
  destruct ev as [[] []| |]; cbn [app mode_after]; rewrite ?IH; reflexivity.
Qed.

(** Without a switch the mode stays, and every forward pass runs in it. *)
Lemma forward_modes_steady (tr : trace) : forall b,
  forallb (fun ev => negb (is_mode_switch ev)) tr = true ->
  mode_after b tr = b /\
  forward_modes b tr = repeat b (count_events is_forward tr).
Proof.
  unfold count_events.
  induction tr as [|ev tr IH]; intros b H; [split; reflexivity|].
  cbn [forallb] in H. apply andb_prop in H. destruct H as [H1 H2].
  destruct (IH b H2) as [I1 I2].
  destruct ev as [[] []| |]; cbn in H1 |- *; try discriminate;
    rewrite ?I1, ?I2; split; reflexivity.
Qed.

Section Modes.

Variable env : Env.

Lemma evaluation_Ok_modes model dataloader device w c b :
  run_result (evaluation env model dataloader device w) = Ok c ->
  mode_after b (run_trace (evaluation env model dataloader device w)) = false /\
  forward_modes b (run_trace (evaluation env model dataloader device w))
  = repeat false (2 * dataloader_len env dataloader).
Proof.
  intros H. unfold evaluation in *.
  ok_bind H u H1. apply invoke_Ok_inv in H1. destruct H1 as [_ T1]. rewrite T1.
  ok_bind H acc H2.
  unfold call_spearmanr in *.
  destruct (spearmanr env (snd acc) (fst acc)) as [c'|n]; [|discriminate H].
  rewrite (proj1 (with_no_grad_run _ _ _)) in H2.
  rewrite (proj2 (with_no_grad_run _ _ _)).
  destruct (evaluation_loop_Ok_counts _ _ _ _ _ _ _ _ _ H2) as (C1 & _ & _).
  rewrite length_seq in C1.
  match type of C1 with count_events _ (run_trace (?m ?w0)) = _ =>
    destruct (tame_evaluation_loop env model dataloader device
                (seq 0 (dataloader_len env dataloader)) [] [] w0) as (HP & _ & _)
  end.
  assert (Hs : forallb (fun ev => negb (is_mode_switch ev))
                 (run_trace
                    (evaluation_loop env model dataloader device
                       (seq 0 (dataloader_len env dataloader)) [] []
                       (no_grad_enter env
                          (run_world (invoke c_model_eval (model_eval env model) w)))))
               = true).
  { revert HP. apply forallb_impl. intros [[] []| |]; simpl; auto. }
  destruct (forward_modes_steady _ false Hs) as [M1 M2]. rewrite C1 in M2.
  cbn [app forward_modes mode_after].
  rewrite forward_modes_app, mode_after_app, M1, M2.
  cbn [run_trace snd forward_modes mode_after]. rewrite app_nil_r.
  split; reflexivity.
Qed.

Lemma step_events_modes model dev_dl device batch_idx best seg best' :
  step_events env model dev_dl device batch_idx best seg best' ->
  mode_after true seg = true /\
  forward_modes true seg = true :: repeat false (2 * dataloader_len env dev_dl).
Proof.
  intros (prep & ids & mask & types & x & w_e & c & Hp & He & Hb & Hs).
  assert (Hprep : forallb (fun ev => negb (is_mode_switch ev)) prep = true).
  { revert Hp. apply forallb_impl. intros [[] []| |]; simpl; auto; discriminate. }
  destruct (forward_modes_steady prep true Hprep) as [P1 P2].
  rewrite (count_events_none is_forward is_reshape_event prep) in P2;
    [|intros [[] []| |]; simpl; auto; discriminate|exact Hp].
  destruct (evaluation_Ok_modes _ _ _ _ _ true He) as [E1 E2].
  subst seg.
  rewrite !forward_modes_app, !mode_after_app, P1, P2.
  cbn [repeat app forward_modes mode_after].
  rewrite ?E1, E2.
  destruct (py_lt best c); cbn [app forward_modes mode_after];
    rewrite ?app_nil_r; split; reflexivity.
Qed.

Lemma loop_events_modes model dev_dl device ks batch_idx best tr best' :
  loop_events env model dev_dl device ks batch_idx best tr best' ->
  mode_after true tr = true /\
  forward_modes true tr
  = List.concat (repeat (true :: repeat false (2 * dataloader_len env dev_dl))
                   (List.length ks)).
Proof.
  induction 1 as [|k ks batch_idx best best1 best2 seg rest Hs Hl [I1 I2]].
  - split; reflexivity.
  - destruct (step_events_modes _ _ _ _ _ _ _ Hs) as [S1 S2].
    cbn [app forward_modes mode_after].
    rewrite forward_modes_app, mode_after_app, S1, S2, I1, I2.
    split; reflexivity.
Qed.

(** X12.  In a completed run of [train], whatever mode the model was in
    before, the forward pass of each training step runs in training mode
    (dropout on, which is what makes the two views of a sentence differ)
    and the forward passes of the evaluation that follows it, two per
    evaluation batch, run in evaluation mode; the run leaves the model in
    training mode. *)
Theorem training_forwards_in_training_mode
    model train_dl dev_dl optimizer device save_path w b :
  run_result (train env model train_dl dev_dl optimizer device save_path w) = Ok tt ->
  forward_modes b (run_trace (train env model train_dl dev_dl optimizer device save_path w))
  = List.concat (repeat (true :: repeat false (2 * dataloader_len env dev_dl))
                   (dataloader_len env train_dl)) /\
  mode_after b (run_trace (train env model train_dl dev_dl optimizer device save_path w))
  = true.
Proof.
  unfold train. intros H.
  ok_bind H u H1. apply invoke_Ok_inv in H1. destruct H1 as [_ T1]. rewrite T1.
  ok_bind H best H2. clear H.
  destruct (loop_events_modes _ _ _ _ _ _ _ _ (train_loop_Ok _ _ _ _ _ _ _ _ _ _ _ H2))
    as [M1 M2].
  rewrite length_seq in M2.
  cbn [app forward_modes mode_after].
  rewrite forward_modes_app, mode_after_app, M1, M2.
  cbn [ret run_trace snd forward_modes]. rewrite app_nil_r. split; reflexivity.
Qed.

End Modes.

Lemma training_forwards_in_training_mode_witness :
  forward_modes false
    (run_trace (train toy_env tt (toy_loader (TrainDataset ["s1"; "s2"] tt 16))
                  (toy_loader (TestDataset toy_rows tt 16)) tt "cpu" "./model_save"
                  toy_start))
  = [true; false; false; false; false; true; false; false; false; false] /\
  mode_after false
    (run_trace (train toy_env tt (toy_loader (TrainDataset ["s1"; "s2"] tt 16))
                  (toy_loader (TestDataset toy_rows tt 16)) tt "cpu" "./model_save"
                  toy_start))
  = true.
Proof.
  apply (training_forwards_in_training_mode toy_env tt
           (toy_loader (TrainDataset ["s1"; "s2"] tt 16))
           (toy_loader (TestDataset toy_rows tt 16)) tt "cpu" "./model_save"
           toy_start false).
  vm_compute. reflexivity.
Defined.
